(** * Food supply chain ledger: a shallow embedding of the JavaScript sources

    The repository holds three revisions of one script:
    - [src/indexu.js]          (embedded at top level),
    - [src/unnamed/part_000]   (embedded in [Module Part000]),
    - [src/unnamed/part_001]   (embedded in [Module Part001]).

    Each script keeps a global array [simulatedBlockchain], a global counter
    [nextTransactionId], and three functions: [addTransaction],
    [processFairPricing] and [verifyFoodConditions].

    Modelling decisions.
    - JavaScript numbers are modelled as exact rationals extended with NaN
      ([num := option Qc], [None] is NaN).  Rounding of IEEE doubles and
      the infinities are outside the model.
    - The [details] payload of a transaction is a mutable object shared by
      reference: [addTransaction] copies only the top-level properties of
      its argument (object spread), so the stored transaction and the
      caller's record point to the same [details] object.  Hence an object
      store ([objects], a [gmap] from locations to [Details]) and
      transactions that hold a location.
    - The functions run in a small state-and-exception monad [JS] over the
      [World] (ledger, counter, object store).
    - [console.log] output is not modelled. *)

From Stdlib Require Import ZArith QArith Qcanon String List Bool Lia Sorted.
From stdpp Require Import base option list gmap.

Import ListNotations.
Local Open Scope Z_scope.

(** ** Numbers *)

(** A JavaScript number: a rational, or NaN ([None]). *)
Definition num : Type := option Qc.

Definition NaN : num := None.

(** The decimal literal [n / d]. *)
Definition lit (n : Z) (d : positive) : num := Some (Q2Qc (n # d)).

Definition nmul (a b : num) : num :=
  match a, b with
  | Some x, Some y => Some (x * y)%Qc
  | _, _ => NaN
  end.

Definition nsub (a b : num) : num :=
  match a, b with
  | Some x, Some y => Some (x - y)%Qc
  | _, _ => NaN
  end.

(** [a < b]; false as soon as one side is NaN. *)
Definition nlt (a b : num) : bool :=
  match a, b with
  | Some x, Some y => bool_decide (x < y)%Qc
  | _, _ => false
  end.

(** [a > b]. *)
Definition ngt (a b : num) : bool := nlt b a.

(** ** JavaScript values held by the untyped fields *)

Inductive JsValue : Type :=
  | JUndefined
  | JNull
  | JBool (b : bool)
  | JNum (q : Qc)
  | JStr (s : string).

(** ToBoolean. *)
Definition truthy (v : JsValue) : bool :=
  match v with
  | JUndefined | JNull => false
  | JBool b => b
  | JNum q => negb (bool_decide (q = 0%Qc))
  | JStr s => negb (String.eqb s EmptyString)
  end.

(** [v === true]. *)
Definition strictlyTrue (v : JsValue) : bool :=
  match v with
  | JBool true => true
  | _ => false
  end.

Definition isBoolean (v : JsValue) : Prop := exists b, v = JBool b.

(** ** Data model *)

Record Thresholds : Type := mkThresholds {
  minTemp : num;
  maxTemp : num;
  minHumidity : num;
  maxHumidity : num
}.

(** The properties of a [details] object that the functions read or write.
    An absent numeric property is [None]; an absent untyped property is
    [JUndefined]. *)
Record Details : Type := mkDetails {
  qualityVerified : JsValue;
  deliveryConfirmed : JsValue;
  quantityKg : option Qc;
  agreedPricePerKg : option Qc;
  spoilageRate : option Qc;
  currentTempCelsius : option Qc;
  currentHumidityPercent : option Qc;
  thresholds : option Thresholds;
  violationDetected : JsValue
}.

(** [d.violationDetected = v]. *)
Definition setViolationDetected (v : JsValue) (d : Details) : Details :=
  {| qualityVerified := qualityVerified d;
     deliveryConfirmed := deliveryConfirmed d;
     quantityKg := quantityKg d;
     agreedPricePerKg := agreedPricePerKg d;
     spoilageRate := spoilageRate d;
     currentTempCelsius := currentTempCelsius d;
     currentHumidityPercent := currentHumidityPercent d;
     thresholds := thresholds d;
     violationDetected := v |}.

(** Locations of [details] objects. *)
Definition loc : Type := positive.

(** The argument of [addTransaction]: the own properties of the caller's
    record.  The JSDoc type of the parameter is [Transaction], so the
    record may carry an [id] and a [timestamp] of its own. *)
Record TransactionData : Type := mkData {
  data_id : option Z;
  data_actorId : string;
  data_productId : string;
  data_timestamp : option string;
  data_location : string;
  data_eventType : string;
  data_details : option loc
}.

(** A stored transaction. *)
Record Transaction : Type := mkTransaction {
  id : Z;
  actorId : string;
  productId : string;
  timestamp : string;
  location : string;
  eventType : string;
  details : option loc
}.

(** The global state of the script and the object store. *)
Record World : Type := mkWorld {
  simulatedBlockchain : list Transaction;
  nextTransactionId : Z;
  objects : gmap loc Details
}.

(** [let simulatedBlockchain = []; let nextTransactionId = 1001;] over a
    given store of caller-made [details] objects. *)
Definition initialWorld (store : gmap loc Details) : World :=
  {| simulatedBlockchain := []; nextTransactionId := 1001; objects := store |}.

(** ** The monad of script functions *)

Inductive Completion (A : Type) : Type :=
  | Normal (a : A)
  | ThrowTypeError.

Arguments Normal {A} a.
Arguments ThrowTypeError {A}.

Definition JS (A : Type) : Type := World -> Completion A * World.

#[global] Instance JS_ret : MRet JS := fun A (a : A) w => (Normal a, w).

#[global] Instance JS_bind : MBind JS := fun A B (k : A -> JS B) (m : JS A) w =>
  match m w with
  | (Normal a, w') => k a w'
  | (ThrowTypeError, w') => (ThrowTypeError, w')
  end.

Definition throwTypeError {A} : JS A := fun w => (ThrowTypeError, w).

(** Evaluate an expression that only reads the world. *)
Definition reads {A} (f : World -> A) : JS A := fun w => (Normal (f w), w).

(** [tx.details], dereferenced; [None] when the property is undefined. *)
Definition detailsOf (w : World) (tx : Transaction) : option Details :=
  match details tx with
  | Some l => objects w !! l
  | None => None
  end.

(** Destructuring [const { ... } = tx.details] throws a TypeError when
    [tx.details] is undefined. *)
Definition destructureDetails (tx : Transaction) : JS Details :=
  fun w =>
    match detailsOf w tx with
    | Some d => (Normal d, w)
    | None => (ThrowTypeError, w)
    end.

(** [nextTransactionId++]. *)
Definition postIncrementNextTransactionId : JS Z :=
  fun w =>
    (Normal (nextTransactionId w),
     {| simulatedBlockchain := simulatedBlockchain w;
        nextTransactionId := nextTransactionId w + 1;
        objects := objects w |}).

(** [simulatedBlockchain.push(t)]. *)
Definition pushTransaction (t : Transaction) : JS unit :=
  fun w =>
    (Normal tt,
     {| simulatedBlockchain := simulatedBlockchain w ++ [t];
        nextTransactionId := nextTransactionId w;
        objects := objects w |}).

(** [tx.details.violationDetected = v]. *)
Definition assignViolationDetected (tx : Transaction) (v : JsValue) : JS unit :=
  fun w =>
    match details tx with
    | Some l =>
        match objects w !! l with
        | Some d =>
            (Normal tt,
             {| simulatedBlockchain := simulatedBlockchain w;
                nextTransactionId := nextTransactionId w;
                objects := <[l := setViolationDetected v d]> (objects w) |})
        | None => (ThrowTypeError, w)
        end
    | None => (ThrowTypeError, w)
    end.

(** ** [src/indexu.js] *)

(** [addTransaction(transactionData)].  The object literal is
    [{ id: nextTransactionId++, ...transactionData, timestamp: now }]:
    properties spread from the argument overwrite [id], and [timestamp]
    overwrites what was spread.  [now] stands for
    [new Date().toISOString()]. *)
Definition addTransaction (transactionData : TransactionData) (now : string)
  : JS Transaction :=
  fresh ← postIncrementNextTransactionId;
  let newTransaction :=
    {| id := match data_id transactionData with
             | Some own => own
             | None => fresh
             end;
       actorId := data_actorId transactionData;
       productId := data_productId transactionData;
       location := data_location transactionData;
       eventType := data_eventType transactionData;
       details := data_details transactionData;
       timestamp := now |} in
  pushTransaction newTransaction;;
  mret newTransaction.

(** The filter of [processFairPricing]:
    [simulatedBlockchain.filter(tx => tx.productId === productId &&
       tx.details && tx.details.violationDetected === true)].
    This is the ledger's lookup of flagged events of one product. *)
Definition findByProductWithViolation (productId0 : string) (w : World)
  : list Transaction :=
  List.filter
    (fun tx =>
       String.eqb (productId tx) productId0 &&
       match detailsOf w tx with
       | Some d => strictlyTrue (violationDetected d)
       | None => false
       end)
    (simulatedBlockchain w).

(** The object returned by [processFairPricing]. *)
Module Pricing.

Record Result : Type := mkResult { status : string; amount : num }.

End Pricing.

(** The default of the destructuring pattern [spoilageRate = 0.15]. *)
Definition spoilageRateOrDefault (d : Details) : num :=
  match spoilageRate d with
  | Some r => Some r
  | None => lit 15 100
  end.

(** [let spoilage = 0; if (recentViolations.length > 0) spoilage =
    spoilageRate * quantityKg;] *)
Definition spoilageKg (recentViolations : list Transaction)
    (spoilageRate0 quantityKg0 : num) : num :=
  if (0 <? length recentViolations)%nat
  then nmul spoilageRate0 quantityKg0
  else lit 0 1.

(** The [if / else if / else] chain of [processFairPricing]. *)
Definition pricingDecision (qualityVerified0 deliveryConfirmed0 : JsValue)
    (quantityKg0 spoilage agreedPricePerKg0 : num) : Pricing.Result :=
  if truthy qualityVerified0 && truthy deliveryConfirmed0 then
    let adjustedQty := nsub quantityKg0 spoilage in
    let totalPayment := nmul adjustedQty agreedPricePerKg0 in
    {| Pricing.status := "Payment Released"; Pricing.amount := totalPayment |}
  else if negb (truthy qualityVerified0) then
    {| Pricing.status := "Quality Pending"; Pricing.amount := lit 0 1 |}
  else if negb (truthy deliveryConfirmed0) then
    {| Pricing.status := "Delivery Pending"; Pricing.amount := lit 0 1 |}
  else
    {| Pricing.status := "Pending"; Pricing.amount := lit 0 1 |}.

(** [processFairPricing(paymentTransaction)]. *)
Definition processFairPricing (paymentTransaction : Transaction)
  : JS Pricing.Result :=
  d ← destructureDetails paymentTransaction;
  recentViolations ←
    reads (findByProductWithViolation (productId paymentTransaction));
  let spoilage :=
    spoilageKg recentViolations (spoilageRateOrDefault d) (quantityKg d) in
  mret (pricingDecision (qualityVerified d) (deliveryConfirmed d)
          (quantityKg d) spoilage (agreedPricePerKg d)).

(** A violation message, kept as its template and the interpolated values:
    [Temperature violation: ${cur}°C (expected ${min}-${max}°C)] and
    [Humidity violation: ${cur}% (expected ${min}-${max}%)]. *)
Inductive Violation : Type :=
  | TemperatureViolation (current lo hi : num)
  | HumidityViolation (current lo hi : num).

(** The object returned by [verifyFoodConditions]. *)
Module Conditions.

Record Result : Type :=
  mkResult { status : string; violations : list Violation }.

End Conditions.

(** [const { minTemp, maxTemp, minHumidity, maxHumidity } = thresholds]
    throws a TypeError when [thresholds] is undefined. *)
Definition destructureThresholds (d : Details) : JS Thresholds :=
  match thresholds d with
  | Some th => mret th
  | None => throwTypeError
  end.

(** The two range checks of [verifyFoodConditions], as the pair of the
    local variables [status] and [violations] after both [if]s. *)
Definition checkConditions (d : Details) (th : Thresholds)
  : string * list Violation :=
  let status := "Conditions Met"%string in
  let violations := @nil Violation in
  let '(status, violations) :=
    if nlt (currentTempCelsius d) (minTemp th)
       || ngt (currentTempCelsius d) (maxTemp th)
    then ("Condition Violation"%string,
          violations ++
          [TemperatureViolation (currentTempCelsius d) (minTemp th) (maxTemp th)])
    else (status, violations) in
  let '(status, violations) :=
    if nlt (currentHumidityPercent d) (minHumidity th)
       || ngt (currentHumidityPercent d) (maxHumidity th)
    then ("Condition Violation"%string,
          violations ++
          [HumidityViolation (currentHumidityPercent d)
             (minHumidity th) (maxHumidity th)])
    else (status, violations) in
  (status, violations).

(** [verifyFoodConditions(conditionTransaction)]. *)
Definition verifyFoodConditions (conditionTransaction : Transaction)
  : JS Conditions.Result :=
  d ← destructureDetails conditionTransaction;
  th ← destructureThresholds d;
  let '(status, violations) := checkConditions d th in
  assignViolationDetected conditionTransaction
    (JBool (0 <? length violations)%nat);;
  mret {| Conditions.status := status; Conditions.violations := violations |}.

(** The guard of the driver:
    [details.currentTempCelsius !== undefined &&
     details.currentHumidityPercent !== undefined && details.thresholds]. *)
Definition hasConditionFields (d : Details) : bool :=
  match currentTempCelsius d, currentHumidityPercent d, thresholds d with
  | Some _, Some _, Some _ => true
  | _, _, _ => false
  end.

Definition isConditionBearing (ty : string) : bool :=
  String.eqb ty "TRANSPORT" || String.eqb ty "WAREHOUSE_RECEIPT"
  || String.eqb ty "RETAIL_RECEIPT".

(** One iteration of the loop of [runSimulation], generic in the two
    contract functions so that each revision instantiates it. *)
Definition processEventWith
    (pricing : Transaction -> JS Pricing.Result)
    (conditions : Transaction -> JS Conditions.Result)
    (data : TransactionData) (now : string) : JS unit :=
  newTx ← addTransaction data now;
  if String.eqb (eventType newTx) "PAYMENT_REQUEST" then
    pricing newTx;; mret tt
  else if isConditionBearing (eventType newTx) then
    d ← destructureDetails newTx;
    if hasConditionFields d then conditions newTx;; mret tt else mret tt
  else mret tt.

(** [for (const data of sampleData) { ... }]. *)
Fixpoint runLoopWith
    (pricing : Transaction -> JS Pricing.Result)
    (conditions : Transaction -> JS Conditions.Result)
    (sampleData : list (TransactionData * string)) : JS unit :=
  match sampleData with
  | [] => mret tt
  | (data, now) :: rest =>
      processEventWith pricing conditions data now;;
      runLoopWith pricing conditions rest
  end.

Definition runSimulation := runLoopWith processFairPricing verifyFoodConditions.

(** ** [src/unnamed/part_000] *)

Module Part000.

(** The filter of this revision tests the flag for truthiness:
    [tx.productId === productId && tx.details &&
     tx.details.violationDetected]. *)
Definition findByProductWithViolation (productId0 : string) (w : World)
  : list Transaction :=
  List.filter
    (fun tx =>
       String.eqb (productId tx) productId0 &&
       match detailsOf w tx with
       | Some d => truthy (violationDetected d)
       | None => false
       end)
    (simulatedBlockchain w).

Definition processFairPricing (paymentTransaction : Transaction)
  : JS Pricing.Result :=
  d ← destructureDetails paymentTransaction;
  recentViolations ←
    reads (findByProductWithViolation (productId paymentTransaction));
  let spoilage :=
    spoilageKg recentViolations (spoilageRateOrDefault d) (quantityKg d) in
  mret (pricingDecision (qualityVerified d) (deliveryConfirmed d)
          (quantityKg d) spoilage (agreedPricePerKg d)).

(** This revision returns from inside [if (violations.length > 0)] and
    never assigns [violationDetected]. *)
Definition verifyFoodConditions (conditionTransaction : Transaction)
  : JS Conditions.Result :=
  d ← destructureDetails conditionTransaction;
  th ← destructureThresholds d;
  let '(status, violations) := checkConditions d th in
  if (0 <? length violations)%nat then
    mret {| Conditions.status := status; Conditions.violations := violations |}
  else
    mret {| Conditions.status := status; Conditions.violations := [] |}.

Definition runSimulation :=
  runLoopWith processFairPricing verifyFoodConditions.

End Part000.

(** ** [src/unnamed/part_001]

    [addTransaction] and [processFairPricing] are those of [indexu.js]. *)

Module Part001.

Definition verifyFoodConditions (conditionTransaction : Transaction)
  : JS Conditions.Result :=
  d ← destructureDetails conditionTransaction;
  th ← destructureThresholds d;
  let '(status, violations) := checkConditions d th in
  if (0 <? length violations)%nat then
    assignViolationDetected conditionTransaction (JBool true);;
    mret {| Conditions.status := status; Conditions.violations := violations |}
  else
    assignViolationDetected conditionTransaction (JBool false);;
    mret {| Conditions.status := status; Conditions.violations := [] |}.

Definition runSimulation :=
  runLoopWith processFairPricing verifyFoodConditions.

End Part001.

(** ** Sample data: the first batch of [sampleData] in [src/indexu.js] *)

Definition int (n : Z) : option Qc := Some (Q2Qc (n # 1)).

(** The [details] objects of the sample records, by kind of event. *)
Definition quantityDetails (kg : Z) : Details :=
  {| qualityVerified := JUndefined; deliveryConfirmed := JUndefined;
     quantityKg := int kg; agreedPricePerKg := None; spoilageRate := None;
     currentTempCelsius := None; currentHumidityPercent := None;
     thresholds := None; violationDetected := JUndefined |}.

Definition conditionDetails (temp hum lo hi hlo hhi : Z) : Details :=
  {| qualityVerified := JUndefined; deliveryConfirmed := JUndefined;
     quantityKg := None; agreedPricePerKg := None; spoilageRate := None;
     currentTempCelsius := int temp; currentHumidityPercent := int hum;
     thresholds :=
       Some {| minTemp := int lo; maxTemp := int hi;
               minHumidity := int hlo; maxHumidity := int hhi |};
     violationDetected := JUndefined |}.

Definition paymentDetails (kg price : Z) (quality delivery : bool)
    (rate : option Qc) : Details :=
  {| qualityVerified := JBool quality; deliveryConfirmed := JBool delivery;
     quantityKg := int kg; agreedPricePerKg := int price; spoilageRate := rate;
     currentTempCelsius := None; currentHumidityPercent := None;
     thresholds := None; violationDetected := JUndefined |}.

Definition record (ty actor product place : string) (l : loc)
  : TransactionData :=
  {| data_id := None; data_actorId := actor; data_productId := product;
     data_timestamp := None; data_location := place; data_eventType := ty;
     data_details := Some l |}.

Arguments record (ty actor product place)%_string l%_positive.

Definition tomatoStore : gmap loc Details :=
  list_to_map
    [ (1%positive, quantityDetails 500);
      (2%positive, conditionDetails 22 70 18 25 60 80);
      (3%positive, conditionDetails 20 65 18 22 60 75);
      (4%positive, quantityDetails 450);
      (5%positive, conditionDetails 30 50 20 28 40 60);
      (6%positive, conditionDetails 25 55 20 30 40 60);
      (7%positive, paymentDetails 500 350 true true (Some (Q2Qc (15 # 100)))) ].

Definition tomatoData : list (TransactionData * string) :=
  [ (record "HARVEST" "farmer_001" "TOMATO_BATCH_001" "Kano Farm Plot A" 1, "t1");
    (record "TRANSPORT" "logistics_NGR_001" "TOMATO_BATCH_001"
       "En route to Lagos Warehouse" 2, "t2");
    (record "WAREHOUSE_RECEIPT" "warehouse_Lagos_001" "TOMATO_BATCH_001"
       "Lagos Central Warehouse" 3, "t3");
    (record "PROCESS" "processor_NGR_001" "TOMATO_BATCH_001"
       "Lagos Processing Plant" 4, "t4");
    (record "TRANSPORT" "logistics_NGR_002" "TOMATO_BATCH_001"
       "En route to Abuja Retailer" 5, "t5");
    (record "RETAIL_RECEIPT" "retailer_Abuja_001" "TOMATO_BATCH_001"
       "Abuja SuperMart" 6, "t6");
    (record "PAYMENT_REQUEST" "farmer_001" "TOMATO_BATCH_001"
       "Kano Farm Office" 7, "t7") ]%string.

(** The world after the first six events of the batch have been processed
    by the loop, and the stored payment request appended after them. *)
Definition worldBeforePayment
    (loop : list (TransactionData * string) -> JS unit) : World :=
  snd (loop (take 6 tomatoData) (initialWorld tomatoStore)).

Definition paymentRequest : TransactionData :=
  record "PAYMENT_REQUEST" "farmer_001" "TOMATO_BATCH_001" "Kano Farm Office" 7.

(** The stored payment request of the tomato batch and the world in which
    the driver prices it (revision [indexu.js]). *)
Definition pricedWorld : World :=
  snd (addTransaction paymentRequest "t7" (worldBeforePayment runSimulation)).

Definition pricedTransaction : Transaction :=
  {| id := 1007; actorId := "farmer_001"; productId := "TOMATO_BATCH_001";
     timestamp := "t7"; location := "Kano Farm Office";
     eventType := "PAYMENT_REQUEST"; details := Some 7%positive |}.

(** A payment request of the garlic batch ([qualityVerified: false]) and of
    a variant with both flags false, stored in a ledger without flagged
    events. *)
Definition pendingStore : gmap loc Details :=
  list_to_map
    [ (1%positive, paymentDetails 250 280 false true (Some (Q2Qc (5 # 100))));
      (2%positive, paymentDetails 250 280 false false None);
      (3%positive, paymentDetails 250 280 true false None);
      (4%positive, paymentDetails 250 280 true true None) ].

Definition pendingTransaction (l : loc) : Transaction :=
  {| id := 1000 + Z.pos l; actorId := "farmer_004";
     productId := "GARLIC_BATCH_004"; timestamp := "t";
     location := "Plateau Highland Farm"; eventType := "PAYMENT_REQUEST";
     details := Some l |}.

Arguments pendingTransaction l%_positive.

Definition pendingWorld : World :=
  {| simulatedBlockchain := map pendingTransaction [1; 2; 3; 4]%positive;
     nextTransactionId := 1005;
     objects := pendingStore |}.

(** A ledger with one flagged transport event and a payment request whose
    [spoilageRate] is 1.5. *)
Definition overdrawnStore : gmap loc Details :=
  list_to_map
    [ (1%positive,
       setViolationDetected (JBool true) (conditionDetails 30 50 20 28 40 60));
      (2%positive, paymentDetails 100 10 true true (Some (Q2Qc (3 # 2)))) ].

Definition overdrawnRequest : Transaction :=
  {| id := 1002; actorId := "farmer_009"; productId := "YAM_BATCH_009";
     timestamp := "t2"; location := "Benue Farm";
     eventType := "PAYMENT_REQUEST"; details := Some 2%positive |}.

Definition overdrawnWorld : World :=
  {| simulatedBlockchain :=
       [ {| id := 1001; actorId := "logistics_NGR_009";
            productId := "YAM_BATCH_009"; timestamp := "t1";
            location := "En route to Makurdi"; eventType := "TRANSPORT";
            details := Some 1%positive |};
         overdrawnRequest ];
     nextTransactionId := 1003;
     objects := overdrawnStore |}.

(** The fifth event of the tomato batch (30 degrees against 20 to 28) as
    stored, and the world in which the driver evaluates it. *)
Definition hotTransport : Transaction :=
  {| id := 1005; actorId := "logistics_NGR_002";
     productId := "TOMATO_BATCH_001"; timestamp := "t5";
     location := "En route to Abuja Retailer"; eventType := "TRANSPORT";
     details := Some 5%positive |}.

Definition worldBeforeHotTransport : World :=
  snd (addTransaction
         (record "TRANSPORT" "logistics_NGR_002" "TOMATO_BATCH_001"
            "En route to Abuja Retailer" 5)
         "t5"
         (snd (runSimulation (take 4 tomatoData) (initialWorld tomatoStore)))).

(** ** Sequences of calls *)

(** [for (const data of batch) returned.push(addTransaction(data))]: the
    transactions returned by a run of appends. *)
Fixpoint appendAll (batch : list (TransactionData * string))
  : JS (list Transaction) :=
  match batch with
  | [] => mret []
  | (data, now) :: rest =>
      newTx ← addTransaction data now;
      others ← appendAll rest;
      mret (newTx :: others)
  end.

(** A call of one of the three functions of the script. *)
Inductive Call : Type :=
  | CallAddTransaction (data : TransactionData) (now : string)
  | CallProcessFairPricing (tx : Transaction)
  | CallVerifyFoodConditions (tx : Transaction).

Definition perform (c : Call) : JS unit :=
  match c with
  | CallAddTransaction data now => addTransaction data now;; mret tt
  | CallProcessFairPricing tx => processFairPricing tx;; mret tt
  | CallVerifyFoodConditions tx => verifyFoodConditions tx;; mret tt
  end.

(** The world after a sequence of calls, each one made whether or not the
    previous one threw. *)
Definition after (calls : list Call) (w : World) : World :=
  fold_left (fun w0 c => snd (perform c w0)) calls w.

(** [selected] is, in the order of [stored], exactly the elements of
    [stored] that satisfy [P] (the lookup as the specification words it). *)
Inductive InOrderExactly {A : Type} (P : A -> Prop) : list A -> list A -> Prop :=
  | exactly_nil : InOrderExactly P [] []
  | exactly_keep (x : A) (stored selected : list A) :
      P x -> InOrderExactly P stored selected ->
      InOrderExactly P (x :: stored) (x :: selected)
  | exactly_skip (x : A) (stored selected : list A) :
      ~ P x -> InOrderExactly P stored selected ->
      InOrderExactly P (x :: stored) selected.

(** An event of product [p] whose flag is the boolean [true]. *)
Definition flaggedTrue (w : World) (p : string) (tx : Transaction) : Prop :=
  productId tx = p /\
  exists d : Details,
    detailsOf w tx = Some d /\ violationDetected d = JBool true.

(** The range checks of a [details] object, by name. *)
Definition temperatureFires (d : Details) (th : Thresholds) : bool :=
  nlt (currentTempCelsius d) (minTemp th)
  || ngt (currentTempCelsius d) (maxTemp th).

Definition humidityFires (d : Details) (th : Thresholds) : bool :=
  nlt (currentHumidityPercent d) (minHumidity th)
  || ngt (currentHumidityPercent d) (maxHumidity th).

(** The value of the local variable [spoilage] in a call of
    [processFairPricing] on [tx] whose [details] object is [d]. *)
Definition spoilageOfCall (w : World) (tx : Transaction) (d : Details) : num :=
  spoilageKg (findByProductWithViolation (productId tx) w)
    (spoilageRateOrDefault d) (quantityKg d).

(** Overwriting the two flags of a [details] object in the store. *)
Definition setFlags (qv dc : JsValue) (d : Details) : Details :=
  {| qualityVerified := qv;
     deliveryConfirmed := dc;
     quantityKg := quantityKg d;
     agreedPricePerKg := agreedPricePerKg d;
     spoilageRate := spoilageRate d;
     currentTempCelsius := currentTempCelsius d;
     currentHumidityPercent := currentHumidityPercent d;
     thresholds := thresholds d;
     violationDetected := violationDetected d |}.

Definition storeDetails (l : loc) (d : Details) (w : World) : World :=
  {| simulatedBlockchain := simulatedBlockchain w;
     nextTransactionId := nextTransactionId w;
     objects := <[l := d]> (objects w) |}.

(** A [details] object whose flag already is what [verifyFoodConditions]
    would write. *)
Definition settled (d : Details) : Prop :=
  forall th : Thresholds,
    thresholds d = Some th ->
    violationDetected d =
      JBool (0 <? length (snd (checkConditions d th)))%nat.

(** A record that carries an [id] of its own, and one that repeats the
    base id. *)
Definition recordWithId (own : Z) (l : loc) : TransactionData :=
  {| data_id := Some own; data_actorId := "farmer_001";
     data_productId := "TOMATO_BATCH_001"; data_timestamp := None;
     data_location := "Kano Farm Plot A"; data_eventType := "HARVEST";
     data_details := Some l |}.

Arguments recordWithId own%_Z l%_positive.

(** A caller-made record whose [details] object carries a truthy flag that
    is not the boolean [true], stored by [addTransaction]. *)
Definition truthyFlagStore : gmap loc Details :=
  list_to_map
    [ (1%positive,
       setViolationDetected (JNum 1%Qc) (conditionDetails 30 50 20 28 40 60));
      (2%positive, conditionDetails 22 70 18 25 60 80);
      (3%positive, paymentDetails 500 350 true true (Some (Q2Qc (15 # 100)))) ].

Definition truthyFlagWorld : World :=
  snd (appendAll
         [ (record "TRANSPORT" "logistics_NGR_002" "TOMATO_BATCH_001"
              "En route to Abuja Retailer" 1, "t1"%string);
           (record "TRANSPORT" "logistics_NGR_001" "TOMATO_BATCH_001"
              "En route to Lagos Warehouse" 2, "t2"%string) ]
         (initialWorld truthyFlagStore)).

Definition truthyFlagTransport : Transaction :=
  {| id := 1001; actorId := "logistics_NGR_002";
     productId := "TOMATO_BATCH_001"; timestamp := "t1";
     location := "En route to Abuja Retailer"; eventType := "TRANSPORT";
     details := Some 1%positive |}.

(** The world in which revision [part_000] evaluates the hot transport. *)
Definition worldBeforeHotTransport000 : World :=
  snd (addTransaction
         (record "TRANSPORT" "logistics_NGR_002" "TOMATO_BATCH_001"
            "En route to Abuja Retailer" 5)
         "t5"
         (snd (Part000.runSimulation (take 4 tomatoData)
                 (initialWorld tomatoStore)))).

(** ** Invariants and side conditions used by the properties *)

(** The ids of the ledger are strictly increasing in append order and all
    below the counter. *)
Definition idsIncreasing (w : World) : Prop :=
  StronglySorted Z.lt (map id (simulatedBlockchain w)) /\
  Forall (fun tx => id tx < nextTransactionId w) (simulatedBlockchain w).

(** A call that does not append a record carrying an [id] of its own. *)
Definition assignsFreshId (c : Call) : Prop :=
  match c with
  | CallAddTransaction data _ => data_id data = None
  | _ => True
  end.

(** Every stored flag is one on which [=== true] and truthiness agree
    (undefined, null, a boolean, 0, the empty string). *)
Definition flagsUnambiguous (w : World) : Prop :=
  forall (tx : Transaction) (d : Details),
    In tx (simulatedBlockchain w) ->
    detailsOf w tx = Some d ->
    truthy (violationDetected d) = strictlyTrue (violationDetected d).

(** A record of the loop that has a [details] object in the store. *)
Definition hasDetailsObject (w : World) (entry : TransactionData * string) : Prop :=
  exists l : loc,
    data_details (fst entry) = Some l /\ is_Some (objects w !! l).

(** The loop sends the record to one of the two contracts. *)
Definition isDispatched (ty : string) : bool :=
  String.eqb ty "PAYMENT_REQUEST" || isConditionBearing ty.

(** The transaction that [addTransaction] builds from a record. *)
Definition stored (data : TransactionData) (now : string) (w : World)
  : Transaction :=
  {| id := match data_id data with
           | Some own => own
           | None => nextTransactionId w
           end;
     actorId := data_actorId data;
     productId := data_productId data;
     location := data_location data;
     eventType := data_eventType data;
     details := data_details data;
     timestamp := now |}.

(** Fixtures: a warehouse receipt whose [details] carry thresholds but no
    readings, a payment request without quantity, and a payment request
    record without [details]. *)
Definition sparseStore : gmap loc Details :=
  list_to_map
    [ (1%positive,
       {| qualityVerified := JUndefined; deliveryConfirmed := JUndefined;
          quantityKg := None; agreedPricePerKg := None; spoilageRate := None;
          currentTempCelsius := None; currentHumidityPercent := None;
          thresholds :=
            Some {| minTemp := int 18; maxTemp := int 22;
                    minHumidity := int 60; maxHumidity := int 75 |};
          violationDetected := JUndefined |});
      (2%positive,
       {| qualityVerified := JBool true; deliveryConfirmed := JBool true;
          quantityKg := None; agreedPricePerKg := int 350; spoilageRate := None;
          currentTempCelsius := None; currentHumidityPercent := None;
          thresholds := None; violationDetected := JUndefined |}) ].

Definition sparseReceipt : Transaction :=
  {| id := 1001; actorId := "warehouse_Lagos_001";
     productId := "TOMATO_BATCH_001"; timestamp := "t1";
     location := "Lagos Central Warehouse"; eventType := "WAREHOUSE_RECEIPT";
     details := Some 1%positive |}.

Definition sparseRequest : Transaction :=
  {| id := 1002; actorId := "farmer_001"; productId := "TOMATO_BATCH_001";
     timestamp := "t2"; location := "Kano Farm Office";
     eventType := "PAYMENT_REQUEST"; details := Some 2%positive |}.

Definition sparseWorld : World :=
  {| simulatedBlockchain := [sparseReceipt; sparseRequest];
     nextTransactionId := 1003;
     objects := sparseStore |}.

Definition requestWithoutDetails : TransactionData :=
  {| data_id := None; data_actorId := "farmer_001";
     data_productId := "TOMATO_BATCH_001"; data_timestamp := None;
     data_location := "Kano Farm Office"; data_eventType := "PAYMENT_REQUEST";
     data_details := None |}.

Definition harvestWithoutDetails : TransactionData :=
  {| data_id := None; data_actorId := "farmer_001";
     data_productId := "TOMATO_BATCH_001"; data_timestamp := None;
     data_location := "Kano Farm Plot A"; data_eventType := "HARVEST";
     data_details := None |}.

(** * Properties *)

(** ** Unfolding lemmas for the monadic definitions *)

Lemma processFairPricing_unfold (w : World) (tx : Transaction) (d : Details) :
  detailsOf w tx = Some d ->
  processFairPricing tx w =
  (Normal (pricingDecision (qualityVerified d) (deliveryConfirmed d)
             (quantityKg d)
             (spoilageKg (findByProductWithViolation (productId tx) w)
                (spoilageRateOrDefault d) (quantityKg d))
             (agreedPricePerKg d)), w).
Proof.
  intros Hd. unfold processFairPricing, mbind, JS_bind, destructureDetails.
  rewrite Hd. reflexivity.
Qed.

Lemma processFairPricing_throws (w : World) (tx : Transaction) :
  detailsOf w tx = None ->
  processFairPricing tx w = (ThrowTypeError, w).
Proof.
  intros Hd. unfold processFairPricing, mbind, JS_bind, destructureDetails.
  rewrite Hd. reflexivity.
Qed.

(** [processFairPricing] hands back the world it was given. *)
Lemma processFairPricing_same_world (w : World) (tx : Transaction) :
  snd (processFairPricing tx w) = w.
Proof.
  destruct (detailsOf w tx) as [d|] eqn:Hd.
  - rewrite (processFairPricing_unfold w tx d Hd). reflexivity.
  - rewrite (processFairPricing_throws w tx Hd). reflexivity.
Qed.

(** The last [else] of the chain is dead for every pair of JavaScript
    values, boolean or not: a truthy [qualityVerified] that fails the first
    test forces a falsy [deliveryConfirmed]. *)
Lemma pricingDecision_status (qv dc : JsValue) (q s p : num) :
  let r := pricingDecision qv dc q s p in
  (truthy qv = true /\ truthy dc = true /\
   Pricing.status r = "Payment Released"%string) \/
  (truthy qv = false /\ Pricing.status r = "Quality Pending"%string /\
   Pricing.amount r = lit 0 1) \/
  (truthy qv = true /\ truthy dc = false /\
   Pricing.status r = "Delivery Pending"%string /\
   Pricing.amount r = lit 0 1).
Proof.
  unfold pricingDecision.
  destruct (truthy qv), (truthy dc); simpl; auto 10.
Qed.

(** ** Arithmetic of the released amount *)

Lemma released_amount_negative (q r p : Qc) :
  (1 < r)%Qc -> (0 < q)%Qc -> (0 < p)%Qc -> ((q - r * q) * p < 0)%Qc.
Proof.
  intros Hr Hq Hp.
  assert (Hlt : (q - r * q < 0)%Qc).
  { apply Qclt_minus_iff.
    replace (0 + - (q - r * q))%Qc with ((r + - 1%Qc) * q)%Qc by ring.
    apply Qcmult_pos_pos; [|assumption].
    apply Qclt_minus_iff in Hr. exact Hr. }
  replace 0%Qc with (0 * p)%Qc by ring.
  apply Qcmult_lt_mono_pos_r; assumption.
Qed.

Lemma released_amount_nonneg (q r p : Qc) :
  (0 <= r)%Qc -> (r <= 1)%Qc -> (0 <= q)%Qc -> (0 <= p)%Qc ->
  (0 <= (q - r * q) * p)%Qc.
Proof.
  intros Hr0 Hr1 Hq Hp.
  apply Qcmult_nonneg_nonneg; [|assumption].
  replace (q - r * q)%Qc with ((1 + - r) * q)%Qc by ring.
  apply Qcmult_nonneg_nonneg; [|assumption].
  apply Qcle_minus_iff in Hr1. exact Hr1.
Qed.

Lemma nsub_zero (q : num) : nsub q (lit 0 1) = q.
Proof.
  destruct q as [q|]; simpl; [|reflexivity].
  f_equal. change (Q2Qc (0 # 1)) with 0%Qc. ring.
Qed.

(** ** The pricing contract ([processFairPricing] of [src/indexu.js]) *)

(** C3.  For a transaction whose [qualityVerified] and [deliveryConfirmed]
    are booleans, [processFairPricing] returns normally and decides in this
    order: both true gives "Payment Released" with amount
    [(quantityKg - spoilageKg) * agreedPricePerKg]; otherwise a false
    [qualityVerified] gives "Quality Pending" with amount 0 whatever
    [deliveryConfirmed] is (so both false is "Quality Pending", not
    "Delivery Pending"); otherwise a false [deliveryConfirmed] gives
    "Delivery Pending" with amount 0. *)
Theorem pricing_precedence
    (w : World) (tx : Transaction) (d : Details) (qv dc : bool) :
  detailsOf w tx = Some d ->
  qualityVerified d = JBool qv ->
  deliveryConfirmed d = JBool dc ->
  exists r : Pricing.Result,
    processFairPricing tx w = (Normal r, w) /\
    (qv = true -> dc = true ->
     r = {| Pricing.status := "Payment Released";
            Pricing.amount :=
              nmul (nsub (quantityKg d)
                      (spoilageKg (findByProductWithViolation (productId tx) w)
                         (spoilageRateOrDefault d) (quantityKg d)))
                   (agreedPricePerKg d) |}) /\
    (qv = false ->
     r = {| Pricing.status := "Quality Pending"; Pricing.amount := lit 0 1 |} /\
     Pricing.status r <> "Delivery Pending"%string) /\
    (qv = true -> dc = false ->
     r = {| Pricing.status := "Delivery Pending"; Pricing.amount := lit 0 1 |}).
Proof.
  intros Hd Hqv Hdc.
  eexists. split; [apply processFairPricing_unfold; exact Hd|].
  rewrite Hqv, Hdc. unfold pricingDecision.
  destruct qv, dc; simpl; repeat split; intros; try discriminate; reflexivity.
Qed.

Lemma pricing_precedence_witness :
  exists r : Pricing.Result,
    processFairPricing (pendingTransaction 2) pendingWorld
      = (Normal r, pendingWorld) /\
    Pricing.status r = "Quality Pending"%string.
Proof.
  destruct (pricing_precedence pendingWorld (pendingTransaction 2)
              (paymentDetails 250 280 false false None) false false)
    as (r & Hrun & _ & Hq & _); [reflexivity | reflexivity | reflexivity |].
  exists r. split; [exact Hrun|].
  destruct (Hq eq_refl) as [-> _]. reflexivity.
Defined.

(** C8.  For a transaction whose [qualityVerified] and [deliveryConfirmed]
    are booleans, [processFairPricing] returns one of "Payment Released",
    "Quality Pending" and "Delivery Pending", never "Pending": the last
    [else] is not reached. *)
Theorem pricing_never_plain_pending
    (w : World) (tx : Transaction) (d : Details) :
  detailsOf w tx = Some d ->
  isBoolean (qualityVerified d) ->
  isBoolean (deliveryConfirmed d) ->
  exists r : Pricing.Result,
    processFairPricing tx w = (Normal r, w) /\
    Pricing.status r <> "Pending"%string /\
    (Pricing.status r = "Payment Released"%string \/
     Pricing.status r = "Quality Pending"%string \/
     Pricing.status r = "Delivery Pending"%string).
Proof.
  intros Hd _ _.
  eexists. split; [apply processFairPricing_unfold; exact Hd|].
  destruct (pricingDecision_status (qualityVerified d) (deliveryConfirmed d)
              (quantityKg d)
              (spoilageKg (findByProductWithViolation (productId tx) w)
                 (spoilageRateOrDefault d) (quantityKg d))
              (agreedPricePerKg d))
    as [(_ & _ & ->) | [(_ & -> & _) | (_ & _ & -> & _)]];
    split; auto; discriminate.
Qed.

Lemma pricing_never_plain_pending_witness :
  exists r : Pricing.Result,
    processFairPricing (pendingTransaction 3) pendingWorld
      = (Normal r, pendingWorld) /\
    Pricing.status r <> "Pending"%string.
Proof.
  destruct (pricing_never_plain_pending pendingWorld (pendingTransaction 3)
              (paymentDetails 250 280 true false None))
    as (r & Hrun & Hne & _);
    [reflexivity | exists true; reflexivity | exists false; reflexivity |].
  exists r. split; assumption.
Defined.

(** C9.  [processFairPricing] leaves the world as it found it, whether it
    returns or throws: the ledger, every [details] object (hence every
    [violationDetected] flag) and the [nextTransactionId] counter are the
    ones before the call. *)
Theorem pricing_frame (w : World) (tx : Transaction) :
  let w' := snd (processFairPricing tx w) in
  w' = w /\
  simulatedBlockchain w' = simulatedBlockchain w /\
  nextTransactionId w' = nextTransactionId w /\
  objects w' = objects w /\
  (forall stored : Transaction,
     In stored (simulatedBlockchain w) -> detailsOf w' stored = detailsOf w stored).
Proof.
  assert (Hsame : snd (processFairPricing tx w) = w).
  { destruct (detailsOf w tx) as [d|] eqn:Hd.
    - rewrite (processFairPricing_unfold w tx d Hd). reflexivity.
    - rewrite (processFairPricing_throws w tx Hd). reflexivity. }
  simpl. rewrite Hsame. auto.
Qed.

(** The pricing contract of revision [part_000] does not write either. *)
Lemma pricing_frame_part_000 (w : World) (tx : Transaction) :
  snd (Part000.processFairPricing tx w) = w.
Proof.
  unfold Part000.processFairPricing, mbind, JS_bind, destructureDetails.
  destruct (detailsOf w tx) as [d|]; reflexivity.
Qed.

(** C7.  With both flags true, a flagged event of the same product in the
    ledger and an explicit [spoilageRate] above 1, the amount returned is
    [(quantityKg - spoilageRate * quantityKg) * agreedPricePerKg] as it
    comes out of the arithmetic; for a positive quantity and price it is
    negative, and the status is still "Payment Released". *)
Theorem pricing_no_clamp
    (w : World) (tx : Transaction) (d : Details) (q p rate : Qc) :
  detailsOf w tx = Some d ->
  qualityVerified d = JBool true ->
  deliveryConfirmed d = JBool true ->
  findByProductWithViolation (productId tx) w <> [] ->
  quantityKg d = Some q ->
  agreedPricePerKg d = Some p ->
  spoilageRate d = Some rate ->
  (1 < rate)%Qc ->
  processFairPricing tx w =
    (Normal {| Pricing.status := "Payment Released";
               Pricing.amount := Some ((q - rate * q) * p)%Qc |}, w) /\
  ((0 < q)%Qc -> (0 < p)%Qc -> ((q - rate * q) * p < 0)%Qc).
Proof.
  intros Hd Hqv Hdc Hviol Hq Hp Hrate Hgt. split.
  - rewrite (processFairPricing_unfold w tx d Hd).
    rewrite Hqv, Hdc, Hq, Hp. unfold spoilageRateOrDefault, spoilageKg.
    rewrite Hrate.
    destruct (findByProductWithViolation (productId tx) w); [congruence|].
    reflexivity.
  - intros. apply released_amount_negative; assumption.
Qed.

Lemma findByProductWithViolation_setFlags
    (w : World) (l : loc) (d : Details) (qv dc : JsValue) (p : string) :
  objects w !! l = Some d ->
  findByProductWithViolation p (storeDetails l (setFlags qv dc d) w)
  = findByProductWithViolation p w.
Proof.
  intros Hl. unfold findByProductWithViolation. simpl.
  apply filter_ext. intros tx. f_equal.
  unfold detailsOf. simpl. destruct (details tx) as [l'|]; [|reflexivity].
  destruct (decide (l = l')) as [<-|Hne].
  - rewrite lookup_insert_eq, Hl. reflexivity.
  - rewrite lookup_insert_ne by assumption. reflexivity.
Qed.

(** C4.  In a call of [processFairPricing] the spoilage is
    [spoilageRate * quantityKg] when the lookup of flagged events of the
    same product is non-empty and 0 when it is empty, with the rate 0.15
    when the [details] object has no [spoilageRate]; the result is the
    decision chain run on that spoilage.  With an empty lookup and both
    flags true the amount released is [quantityKg * agreedPricePerKg].
    Overwriting the two flags with any values leaves the spoilage of the
    call unchanged. *)
Theorem pricing_spoilage
    (w : World) (tx : Transaction) (l : loc) (d : Details) :
  details tx = Some l ->
  objects w !! l = Some d ->
  let recent := findByProductWithViolation (productId tx) w in
  let rate := match spoilageRate d with
              | Some r => Some r
              | None => lit 15 100
              end in
  (recent <> [] -> spoilageOfCall w tx d = nmul rate (quantityKg d)) /\
  (recent = [] -> spoilageOfCall w tx d = lit 0 1) /\
  processFairPricing tx w =
    (Normal (pricingDecision (qualityVerified d) (deliveryConfirmed d)
               (quantityKg d) (spoilageOfCall w tx d) (agreedPricePerKg d)), w) /\
  (recent = [] ->
   qualityVerified d = JBool true -> deliveryConfirmed d = JBool true ->
   processFairPricing tx w =
     (Normal {| Pricing.status := "Payment Released";
                Pricing.amount := nmul (quantityKg d) (agreedPricePerKg d) |},
      w)) /\
  (forall qv dc : JsValue,
     spoilageOfCall (storeDetails l (setFlags qv dc d) w) tx (setFlags qv dc d)
     = spoilageOfCall w tx d).
Proof.
  intros Htx Hl recent rate.
  assert (Hd : detailsOf w tx = Some d) by (unfold detailsOf; rewrite Htx; exact Hl).
  assert (Hrun := processFairPricing_unfold w tx d Hd).
  fold (spoilageOfCall w tx d) in Hrun.
  repeat split.
  - intros Hne. unfold spoilageOfCall, spoilageKg. fold recent.
    destruct recent; [congruence|reflexivity].
  - intros He. unfold spoilageOfCall, spoilageKg. fold recent.
    rewrite He. reflexivity.
  - exact Hrun.
  - intros He Hqv Hdc. rewrite Hrun. do 2 f_equal.
    rewrite Hqv, Hdc. unfold pricingDecision. simpl. f_equal.
    unfold spoilageOfCall, spoilageKg. fold recent. rewrite He. simpl.
    rewrite nsub_zero. reflexivity.
  - intros qv dc. unfold spoilageOfCall.
    rewrite findByProductWithViolation_setFlags by assumption. reflexivity.
Qed.

Lemma pricing_spoilage_witness :
  processFairPricing (pendingTransaction 4) pendingWorld =
    (Normal {| Pricing.status := "Payment Released";
               Pricing.amount := nmul (int 250) (int 280) |}, pendingWorld).
Proof.
  destruct (pricing_spoilage pendingWorld (pendingTransaction 4) 4%positive
              (paymentDetails 250 280 true true None) eq_refl eq_refl)
    as (_ & _ & _ & Hfree & _).
  apply Hfree; reflexivity.
Defined.

(** C10.  With a non-negative [quantityKg], a non-negative
    [agreedPricePerKg] and a spoilage rate (the explicit one, or the 0.15
    default) between 0 and 1, the amount returned by [processFairPricing]
    is a number that is not negative: it is 0 in the pending branches and
    [(quantityKg - spoilageKg) * agreedPricePerKg] in the released one. *)
Theorem pricing_amount_nonneg
    (w : World) (tx : Transaction) (d : Details) (q p rate : Qc) :
  detailsOf w tx = Some d ->
  quantityKg d = Some q -> (0 <= q)%Qc ->
  agreedPricePerKg d = Some p -> (0 <= p)%Qc ->
  spoilageRateOrDefault d = Some rate -> (0 <= rate)%Qc -> (rate <= 1)%Qc ->
  exists (r : Pricing.Result) (a : Qc),
    processFairPricing tx w = (Normal r, w) /\
    Pricing.amount r = Some a /\
    (0 <= a)%Qc /\
    (Pricing.status r <> "Payment Released"%string -> a = 0%Qc) /\
    (Pricing.status r = "Payment Released"%string ->
     Pricing.amount r =
       nmul (nsub (Some q) (spoilageOfCall w tx d)) (Some p)).
Proof.
  intros Hd Hq Hq0 Hp Hp0 Hrate Hr0 Hr1.
  rewrite (processFairPricing_unfold w tx d Hd).
  fold (spoilageOfCall w tx d).
  assert (Hs : spoilageOfCall w tx d = Some (rate * q)%Qc \/
               spoilageOfCall w tx d = Some 0%Qc).
  { unfold spoilageOfCall, spoilageKg. rewrite Hrate, Hq.
    destruct (0 <? _)%nat; [left|right]; reflexivity. }
  rewrite Hq, Hp. unfold pricingDecision.
  assert (Hzero : (0 <= 0)%Qc) by apply Qcle_refl.
  destruct (truthy (qualityVerified d)), (truthy (deliveryConfirmed d)); simpl.
  2-4: eexists; exists 0%Qc;
       (split; [reflexivity|]); (split; [reflexivity|]);
       (split; [exact Hzero|]); split; intros; [reflexivity|discriminate].
  destruct Hs as [-> | ->]; simpl; eexists; eexists;
    (split; [reflexivity|]); (split; [reflexivity|]).
  - split; [apply released_amount_nonneg; assumption|].
    split; [intros Hne; exfalso; apply Hne; reflexivity | reflexivity].
  - split.
    + replace (q - 0)%Qc with q by ring.
      apply Qcmult_nonneg_nonneg; assumption.
    + split; [intros Hne; exfalso; apply Hne; reflexivity | reflexivity].
Qed.

Lemma pricing_no_clamp_witness :
  processFairPricing overdrawnRequest overdrawnWorld =
    (Normal {| Pricing.status := "Payment Released";
               Pricing.amount :=
                 Some ((Q2Qc (100 # 1) - Q2Qc (3 # 2) * Q2Qc (100 # 1))
                       * Q2Qc (10 # 1))%Qc |},
     overdrawnWorld).
Proof.
  refine (proj1 (pricing_no_clamp overdrawnWorld overdrawnRequest
                   (paymentDetails 100 10 true true (Some (Q2Qc (3 # 2))))
                   (Q2Qc (100 # 1)) (Q2Qc (10 # 1)) (Q2Qc (3 # 2))
                   eq_refl eq_refl eq_refl _ eq_refl eq_refl eq_refl _)).
  - vm_compute. discriminate.
  - vm_compute. reflexivity.
Defined.

Lemma pricing_amount_nonneg_witness :
  exists (r : Pricing.Result) (a : Qc),
    processFairPricing pricedTransaction pricedWorld = (Normal r, pricedWorld) /\
    Pricing.amount r = Some a /\ (0 <= a)%Qc.
Proof.
  destruct (pricing_amount_nonneg pricedWorld pricedTransaction
              (paymentDetails 500 350 true true (Some (Q2Qc (15 # 100))))
              (Q2Qc (500 # 1)) (Q2Qc (350 # 1)) (Q2Qc (15 # 100)))
    as (r & a & Hrun & Ha & Hle & _).
  - vm_compute. reflexivity.
  - reflexivity.
  - vm_compute. discriminate.
  - reflexivity.
  - vm_compute. discriminate.
  - reflexivity.
  - vm_compute. discriminate.
  - vm_compute. discriminate.
  - exists r, a. auto.
Defined.

(** ** The conditions contract ([verifyFoodConditions]) *)

Lemma nlt_spec (x y : Qc) : nlt (Some x) (Some y) = true <-> (x < y)%Qc.
Proof. unfold nlt. apply bool_decide_eq_true. Qed.

Lemma ngt_spec (x y : Qc) : ngt (Some x) (Some y) = true <-> (y < x)%Qc.
Proof. unfold ngt. apply nlt_spec. Qed.

(** A range check fires exactly when the measured value is strictly
    outside the closed range. *)
Lemma range_check_spec (x lo hi : Qc) :
  nlt (Some x) (Some lo) || ngt (Some x) (Some hi) = true
  <-> ((x < lo)%Qc \/ (hi < x)%Qc).
Proof.
  rewrite orb_true_iff, nlt_spec, ngt_spec. reflexivity.
Qed.

Lemma range_check_boundary (x lo hi : Qc) :
  (lo <= hi)%Qc -> x = lo \/ x = hi ->
  nlt (Some x) (Some lo) || ngt (Some x) (Some hi) = false.
Proof.
  intros Hle Hx. apply not_true_iff_false. rewrite range_check_spec.
  intros [Hlt | Hlt]; destruct Hx as [-> | ->].
  - exact (proj1 (Qcle_ngt _ _) (Qcle_refl _) Hlt).
  - apply Qcle_ngt in Hle. contradiction.
  - apply Qcle_ngt in Hle. contradiction.
  - exact (proj1 (Qcle_ngt _ _) (Qcle_refl _) Hlt).
Qed.

Lemma checkConditions_spec (d : Details) (th : Thresholds) :
  checkConditions d th =
  (if temperatureFires d th || humidityFires d th
   then "Condition Violation"%string else "Conditions Met"%string,
   (if temperatureFires d th
    then [TemperatureViolation (currentTempCelsius d) (minTemp th) (maxTemp th)]
    else [])
   ++
   (if humidityFires d th
    then [HumidityViolation (currentHumidityPercent d)
            (minHumidity th) (maxHumidity th)]
    else [])).
Proof.
  unfold checkConditions, temperatureFires, humidityFires.
  destruct (nlt (currentTempCelsius d) (minTemp th)
            || ngt (currentTempCelsius d) (maxTemp th));
  destruct (nlt (currentHumidityPercent d) (minHumidity th)
            || ngt (currentHumidityPercent d) (maxHumidity th));
  reflexivity.
Qed.

Lemma checkConditions_length (d : Details) (th : Thresholds) :
  (0 <? length (snd (checkConditions d th)))%nat
  = temperatureFires d th || humidityFires d th.
Proof.
  rewrite checkConditions_spec. simpl.
  destruct (temperatureFires d th), (humidityFires d th); reflexivity.
Qed.

Lemma checkConditions_setViolationDetected
    (v : JsValue) (d : Details) (th : Thresholds) :
  checkConditions (setViolationDetected v d) th = checkConditions d th.
Proof. reflexivity. Qed.

Lemma verifyFoodConditions_unfold
    (w : World) (tx : Transaction) (l : loc) (d : Details) (th : Thresholds) :
  details tx = Some l ->
  objects w !! l = Some d ->
  thresholds d = Some th ->
  verifyFoodConditions tx w =
  (Normal {| Conditions.status := fst (checkConditions d th);
             Conditions.violations := snd (checkConditions d th) |},
   storeDetails l
     (setViolationDetected
        (JBool (0 <? length (snd (checkConditions d th)))%nat) d) w).
Proof.
  intros Htx Hl Hth.
  unfold verifyFoodConditions, mbind, JS_bind, destructureDetails,
    destructureThresholds, detailsOf.
  rewrite Htx, Hl, Hth. simpl.
  destruct (checkConditions d th) as [status violations]. simpl.
  unfold assignViolationDetected. rewrite Htx, Hl. reflexivity.
Qed.

(** C5.  On a transaction with thresholds, [verifyFoodConditions] returns
    normally; the temperature check fires iff
    [currentTempCelsius < minTemp] or [currentTempCelsius > maxTemp] and the
    humidity check iff [currentHumidityPercent < minHumidity] or
    [currentHumidityPercent > maxHumidity] (a value on a bound of an ordered
    range does not fire); each check contributes its message whatever the
    other does, temperature before humidity; the status is
    "Conditions Met" iff neither fires and "Condition Violation"
    otherwise. *)
Theorem conditions_checks
    (w : World) (tx : Transaction) (l : loc) (d : Details) (th : Thresholds) :
  details tx = Some l ->
  objects w !! l = Some d ->
  thresholds d = Some th ->
  exists (r : Conditions.Result) (w' : World),
    verifyFoodConditions tx w = (Normal r, w') /\
    Conditions.violations r =
      (if temperatureFires d th
       then [TemperatureViolation (currentTempCelsius d) (minTemp th) (maxTemp th)]
       else [])
      ++
      (if humidityFires d th
       then [HumidityViolation (currentHumidityPercent d)
               (minHumidity th) (maxHumidity th)]
       else []) /\
    (Conditions.status r = "Conditions Met"%string <->
     temperatureFires d th = false /\ humidityFires d th = false) /\
    (Conditions.status r = "Condition Violation"%string <->
     temperatureFires d th = true \/ humidityFires d th = true) /\
    (forall t lo hi : Qc,
       currentTempCelsius d = Some t -> minTemp th = Some lo ->
       maxTemp th = Some hi ->
       (temperatureFires d th = true <-> (t < lo)%Qc \/ (hi < t)%Qc) /\
       ((lo <= hi)%Qc -> t = lo \/ t = hi -> temperatureFires d th = false)) /\
    (forall h lo hi : Qc,
       currentHumidityPercent d = Some h -> minHumidity th = Some lo ->
       maxHumidity th = Some hi ->
       (humidityFires d th = true <-> (h < lo)%Qc \/ (hi < h)%Qc) /\
       ((lo <= hi)%Qc -> h = lo \/ h = hi -> humidityFires d th = false)).
Proof.
  intros Htx Hl Hth.
  eexists. eexists.
  split; [apply (verifyFoodConditions_unfold w tx l d th); assumption|].
  simpl. rewrite checkConditions_spec. simpl.
  split; [reflexivity|].
  split; [|split; [|split]].
  - destruct (temperatureFires d th), (humidityFires d th); simpl;
      split; intros H; try discriminate H;
      try (destruct H; discriminate); auto.
  - destruct (temperatureFires d th), (humidityFires d th); simpl;
      split; intros H; try discriminate H;
      try (destruct H; discriminate); auto.
  - intros t lo hi Ht Hlo Hhi. unfold temperatureFires.
    rewrite Ht, Hlo, Hhi. split.
    + apply range_check_spec.
    + apply range_check_boundary.
  - intros h lo hi Hh Hlo Hhi. unfold humidityFires.
    rewrite Hh, Hlo, Hhi. split.
    + apply range_check_spec.
    + apply range_check_boundary.
Qed.

Lemma conditions_checks_witness :
  exists (r : Conditions.Result) (w' : World),
    verifyFoodConditions hotTransport worldBeforeHotTransport = (Normal r, w') /\
    Conditions.status r = "Condition Violation"%string /\
    Conditions.violations r =
      [TemperatureViolation (int 30) (int 20) (int 28)].
Proof.
  destruct (conditions_checks worldBeforeHotTransport hotTransport 5%positive
              (conditionDetails 30 50 20 28 40 60)
              {| minTemp := int 20; maxTemp := int 28;
                 minHumidity := int 40; maxHumidity := int 60 |}
              eq_refl eq_refl eq_refl)
    as (r & w' & Hrun & Hviol & _ & Hstatus & _).
  exists r, w'. split; [exact Hrun|]. split.
  - apply Hstatus. left. vm_compute. reflexivity.
  - rewrite Hviol. vm_compute. reflexivity.
Defined.

(** The three revisions return the same result on every input; they differ
    only in the write to [violationDetected]. *)
Lemma verifyFoodConditions_part_000_result (w : World) (tx : Transaction) :
  fst (Part000.verifyFoodConditions tx w) = fst (verifyFoodConditions tx w).
Proof.
  unfold Part000.verifyFoodConditions, verifyFoodConditions, mbind, JS_bind,
    destructureDetails, destructureThresholds, assignViolationDetected, detailsOf.
  destruct (details tx) as [l|]; [|reflexivity].
  destruct (objects w !! l) as [d|] eqn:Hl; [|reflexivity].
  destruct (thresholds d) as [th|]; [|reflexivity]. simpl.
  destruct (checkConditions d th) as [status violations]. simpl.
  rewrite Hl.
  destruct violations; reflexivity.
Qed.

Lemma verifyFoodConditions_part_001_same (w : World) (tx : Transaction) :
  Part001.verifyFoodConditions tx w = verifyFoodConditions tx w.
Proof.
  unfold Part001.verifyFoodConditions, verifyFoodConditions, mbind, JS_bind,
    destructureDetails, destructureThresholds, assignViolationDetected, detailsOf.
  destruct (details tx) as [l|]; [|reflexivity].
  destruct (objects w !! l) as [d|] eqn:Hl; [|reflexivity].
  destruct (thresholds d) as [th|]; [|reflexivity]. simpl.
  destruct (checkConditions d th) as [status violations]. simpl.
  unfold mret, JS_ret.
  destruct violations; simpl; rewrite Hl; reflexivity.
Qed.

(** The revision [part_000] never writes: its conditions contract leaves
    the world unchanged. *)
Lemma verifyFoodConditions_part_000_frame (w : World) (tx : Transaction) :
  snd (Part000.verifyFoodConditions tx w) = w.
Proof.
  unfold Part000.verifyFoodConditions, mbind, JS_bind,
    destructureDetails, destructureThresholds, detailsOf.
  destruct (details tx) as [l|]; [|reflexivity].
  destruct (objects w !! l) as [d|]; [|reflexivity].
  destruct (thresholds d) as [th|]; [|reflexivity]. simpl.
  destruct (checkConditions d th) as [status violations].
  destruct violations; reflexivity.
Qed.

(** ** The ledger ([addTransaction] and the lookup) *)

Lemma addTransaction_unfold (data : TransactionData) (now : string) (w : World) :
  let newTransaction :=
    {| id := match data_id data with
             | Some own => own
             | None => nextTransactionId w
             end;
       actorId := data_actorId data;
       productId := data_productId data;
       location := data_location data;
       eventType := data_eventType data;
       details := data_details data;
       timestamp := now |} in
  addTransaction data now w =
  (Normal newTransaction,
   {| simulatedBlockchain := simulatedBlockchain w ++ [newTransaction];
      nextTransactionId := nextTransactionId w + 1;
      objects := objects w |}).
Proof. reflexivity. Qed.

(** Every append, whatever the record, adds exactly the returned
    transaction at the tail, moves the counter by one and touches no
    [details] object. *)
Lemma addTransaction_appends (data : TransactionData) (now : string) (w : World) :
  exists newTx : Transaction,
    addTransaction data now w =
      (Normal newTx,
       {| simulatedBlockchain := simulatedBlockchain w ++ [newTx];
          nextTransactionId := nextTransactionId w + 1;
          objects := objects w |}) /\
    timestamp newTx = now /\
    (data_id data = None -> id newTx = nextTransactionId w).
Proof.
  eexists. split; [apply addTransaction_unfold|]. simpl.
  split; [reflexivity|]. intros ->. reflexivity.
Qed.

Lemma appendAll_cons (data : TransactionData) (now : string)
    (rest : list (TransactionData * string)) (w : World) :
  appendAll ((data, now) :: rest) w =
  match addTransaction data now w with
  | (Normal newTx, w1) =>
      match appendAll rest w1 with
      | (Normal others, w2) => (Normal (newTx :: others), w2)
      | (ThrowTypeError, w2) => (ThrowTypeError, w2)
      end
  | (ThrowTypeError, w1) => (ThrowTypeError, w1)
  end.
Proof. reflexivity. Qed.

(** A run of appends returns normally and extends the ledger by the
    transactions it returned, in order; nothing stored before is removed,
    changed or moved. *)
Lemma appendAll_append_only (batch : list (TransactionData * string)) (w : World) :
  exists (returned : list Transaction) (w' : World),
    appendAll batch w = (Normal returned, w') /\
    length returned = length batch /\
    simulatedBlockchain w' = simulatedBlockchain w ++ returned /\
    nextTransactionId w' = nextTransactionId w + Z.of_nat (length batch) /\
    objects w' = objects w.
Proof.
  revert w. induction batch as [|[data now] rest IH]; intros w.
  - exists [], w. simpl. rewrite app_nil_r, Z.add_0_r. auto.
  - destruct (addTransaction_appends data now w) as (newTx & Hadd & _).
    destruct (IH (snd (addTransaction data now w)))
      as (others & w2 & Hrest & Hlen & Hchain & Hnext & Hobj).
    rewrite Hadd in Hrest, Hchain, Hnext, Hobj.
    simpl in Hrest, Hchain, Hnext, Hobj.
    exists (newTx :: others), w2.
    rewrite appendAll_cons, Hadd, Hrest.
    split; [reflexivity|]. split; [simpl; congruence|].
    split; [rewrite Hchain, <- app_assoc; reflexivity|].
    split; [|exact Hobj].
    change (length ((data, now) :: rest)) with (S (length rest)).
    rewrite Hnext. lia.
Qed.

(** For records that carry no [id] of their own, the ids returned by a run
    of appends are the consecutive integers from the counter on: from the
    initial world, 1001, 1002, ... *)
Lemma appendAll_ids_without_own_id
    (batch : list (TransactionData * string)) (w : World) :
  Forall (fun entry => data_id (fst entry) = None) batch ->
  map id (match fst (appendAll batch w) with
          | Normal returned => returned
          | ThrowTypeError => []
          end)
  = map (fun i => nextTransactionId w + Z.of_nat i) (seq 0 (length batch)).
Proof.
  revert w. induction batch as [|[data now] rest IH]; intros w Hall.
  - reflexivity.
  - inversion Hall as [|entry rest' Hnone Hrest]; subst. simpl in Hnone.
    destruct (addTransaction_appends data now w) as (newTx & Hadd & _ & Hid).
    specialize (IH (snd (addTransaction data now w)) Hrest).
    destruct (appendAll_append_only rest (snd (addTransaction data now w)))
      as (others & w2 & Hrun & _).
    rewrite Hrun in IH. rewrite Hadd in Hrun, IH. simpl in Hrun, IH.
    rewrite appendAll_cons, Hadd, Hrun. simpl.
    rewrite (Hid Hnone), Z.add_0_r. f_equal.
    rewrite IH, <- seq_shift, map_map.
    apply map_ext. intros i. lia.
Qed.

(** C6 does not hold of [addTransaction] for every record.  The object
    literal spreads the argument after [id], so a record that carries an
    [id] of its own keeps it: from the initial world, appending a record
    with [id: 7] and then one without returns the ids 7 and 1002, and
    appending twice a record with [id: 1001] returns 1001 twice.  (For
    records without an [id] the ids are consecutive from 1001, see
    [appendAll_ids_without_own_id]; every append is at the tail, see
    [appendAll_append_only].) *)
Theorem append_own_id_overrides :
  (exists (returned : list Transaction) (w' : World),
     appendAll [ (recordWithId 7 1, "t1"%string);
                 (record "HARVEST" "farmer_002" "ONION_BATCH_002"
                    "Kaduna Farm Block B" 2, "t2"%string) ]
       (initialWorld tomatoStore) = (Normal returned, w') /\
     map id returned = [7; 1002] /\
     nextTransactionId w' = 1003) /\
  (exists (returned : list Transaction) (w' : World),
     appendAll [ (recordWithId 1001 1, "t1"%string);
                 (recordWithId 1001 1, "t2"%string) ]
       (initialWorld tomatoStore) = (Normal returned, w') /\
     map id returned = [1001; 1001]).
Proof.
  split; eexists; eexists; (split; [reflexivity|]); simpl; auto.
Qed.

Lemma strictlyTrue_spec (v : JsValue) : strictlyTrue v = true <-> v = JBool true.
Proof.
  destruct v as [| |[|]| |]; simpl; split; intros H;
    try discriminate H; reflexivity.
Qed.

(** The callback of the filter in [indexu.js] decides [flaggedTrue]. *)
Lemma lookup_callback_spec (w : World) (p : string) (tx : Transaction) :
  String.eqb (productId tx) p &&
  match detailsOf w tx with
  | Some d => strictlyTrue (violationDetected d)
  | None => false
  end = true
  <-> flaggedTrue w p tx.
Proof.
  unfold flaggedTrue. rewrite andb_true_iff, String.eqb_eq.
  split.
  - intros [Hp Hflag]. split; [exact Hp|].
    destruct (detailsOf w tx) as [d|]; [|discriminate].
    exists d. split; [reflexivity|]. apply strictlyTrue_spec. exact Hflag.
  - intros [Hp (d & Hd & Hflag)]. split; [exact Hp|].
    rewrite Hd. apply strictlyTrue_spec. exact Hflag.
Qed.

Lemma filter_in_order_exactly {A : Type} (P : A -> Prop) (f : A -> bool)
    (stored : list A) :
  (forall x, f x = true <-> P x) ->
  InOrderExactly P stored (List.filter f stored).
Proof.
  intros Hf. induction stored as [|x stored IH]; simpl.
  - constructor.
  - destruct (f x) eqn:Hx.
    + apply exactly_keep; [apply Hf; exact Hx | exact IH].
    + apply exactly_skip; [|exact IH].
      intros HP. apply Hf in HP. congruence.
Qed.

(** [InOrderExactly] determines the selection. *)
Lemma in_order_exactly_unique {A : Type} (P : A -> Prop)
    (stored r1 r2 : list A) :
  InOrderExactly P stored r1 -> InOrderExactly P stored r2 -> r1 = r2.
Proof.
  intros H1. revert r2.
  induction H1 as [|x stored r1 HP H1 IH|x stored r1 HP H1 IH];
    intros r2 H2; inversion H2; subst; try contradiction.
  - reflexivity.
  - f_equal. apply IH. assumption.
  - apply IH. assumption.
Qed.

(** The lookup of [indexu.js] (and of [part_001], which has the same
    filter) returns, in append order, exactly the stored events of the
    product whose flag is the boolean [true]; an event whose flag is
    anything else, absent or truthy, is left out. *)
Lemma lookup_strict (w : World) (p : string) :
  InOrderExactly (flaggedTrue w p) (simulatedBlockchain w)
    (findByProductWithViolation p w) /\
  (forall tx : Transaction,
     In tx (findByProductWithViolation p w) <->
     In tx (simulatedBlockchain w) /\ flaggedTrue w p tx) /\
  (forall (tx : Transaction) (d : Details),
     detailsOf w tx = Some d ->
     violationDetected d <> JBool true ->
     ~ In tx (findByProductWithViolation p w)).
Proof.
  split; [|split].
  - apply filter_in_order_exactly. apply lookup_callback_spec.
  - intros tx. unfold findByProductWithViolation.
    rewrite filter_In, lookup_callback_spec. reflexivity.
  - intros tx d Hd Hflag Hin. unfold findByProductWithViolation in Hin.
    apply filter_In in Hin. destruct Hin as [_ Hcb].
    apply lookup_callback_spec in Hcb.
    destruct Hcb as [_ (d' & Hd' & Htrue)]. congruence.
Qed.

(** C2 does not hold of revision [part_000], whose filter tests the flag
    for truthiness: a stored event whose [violationDetected] is the number
    1 is returned by the lookup, although the flag is not the boolean
    [true]; the filter of [indexu.js] leaves the same event out (see
    [lookup_strict] for what holds there). *)
Theorem part_000_lookup_keeps_truthy_flag :
  In truthyFlagTransport (simulatedBlockchain truthyFlagWorld) /\
  (exists d : Details,
     detailsOf truthyFlagWorld truthyFlagTransport = Some d /\
     violationDetected d = JNum 1%Qc /\
     violationDetected d <> JBool true) /\
  Part000.findByProductWithViolation "TOMATO_BATCH_001" truthyFlagWorld
    = [truthyFlagTransport] /\
  findByProductWithViolation "TOMATO_BATCH_001" truthyFlagWorld = [].
Proof.
  split; [left; reflexivity|].
  split.
  - eexists. split; [reflexivity|]. simpl. split; [reflexivity|discriminate].
  - split; reflexivity.
Qed.

(** ** Persistence of the annotation *)

Lemma snd_then_unit {A : Type} (m : JS A) (w : World) :
  snd ((m;; mret tt) w) = snd (m w).
Proof.
  unfold mbind, JS_bind. destruct (m w) as [[a|] w']; reflexivity.
Qed.

Lemma setViolationDetected_same (d : Details) (v : JsValue) :
  violationDetected d = v -> setViolationDetected v d = d.
Proof. intros <-. destruct d. reflexivity. Qed.

(** What [verifyFoodConditions] of [indexu.js] does to the world: nothing
    when it throws, one write to the evaluated [details] object when it
    returns. *)
Lemma verifyFoodConditions_world (w : World) (tx : Transaction) :
  snd (verifyFoodConditions tx w) = w \/
  exists (l : loc) (d : Details) (th : Thresholds),
    details tx = Some l /\ objects w !! l = Some d /\ thresholds d = Some th /\
    snd (verifyFoodConditions tx w) =
      storeDetails l
        (setViolationDetected
           (JBool (0 <? length (snd (checkConditions d th)))%nat) d) w.
Proof.
  destruct (details tx) as [l|] eqn:Htx.
  - destruct (objects w !! l) as [d|] eqn:Hl.
    + destruct (thresholds d) as [th|] eqn:Hth.
      * right. exists l, d, th.
        rewrite (verifyFoodConditions_unfold w tx l d th Htx Hl Hth). auto.
      * left. unfold verifyFoodConditions, mbind, JS_bind, destructureDetails,
          destructureThresholds, detailsOf.
        rewrite Htx, Hl, Hth. reflexivity.
    + left. unfold verifyFoodConditions, mbind, JS_bind, destructureDetails,
        detailsOf.
      rewrite Htx, Hl. reflexivity.
  - left. unfold verifyFoodConditions, mbind, JS_bind, destructureDetails,
      detailsOf.
    rewrite Htx. reflexivity.
Qed.

(** No call removes or moves a stored transaction. *)
Lemma perform_append_only (c : Call) (w : World) :
  exists extra : list Transaction,
    simulatedBlockchain (snd (perform c w)) = simulatedBlockchain w ++ extra.
Proof.
  destruct c as [data now|tx|tx]; unfold perform; rewrite snd_then_unit.
  - destruct (addTransaction_appends data now w) as (newTx & -> & _).
    exists [newTx]. reflexivity.
  - rewrite processFairPricing_same_world. exists []. symmetry. apply app_nil_r.
  - exists []. rewrite app_nil_r.
    destruct (verifyFoodConditions_world w tx)
      as [-> | (l & d & th & _ & _ & _ & ->)]; reflexivity.
Qed.

(** A settled [details] object stays as it is under every call, a new
    evaluation of the same object included. *)
Lemma perform_keeps_settled (c : Call) (w : World) (l : loc) (d : Details) :
  objects w !! l = Some d -> settled d ->
  objects (snd (perform c w)) !! l = Some d.
Proof.
  intros Hl Hsettled.
  destruct c as [data now|tx|tx]; unfold perform; rewrite snd_then_unit.
  - destruct (addTransaction_appends data now w) as (newTx & -> & _). exact Hl.
  - rewrite processFairPricing_same_world. exact Hl.
  - destruct (verifyFoodConditions_world w tx)
      as [-> | (l2 & d2 & th2 & _ & Hl2 & Hth2 & ->)]; [exact Hl|].
    simpl. destruct (decide (l2 = l)) as [->|Hne].
    + rewrite lookup_insert_eq. f_equal.
      assert (d2 = d) by congruence. subst d2.
      apply setViolationDetected_same. apply Hsettled. exact Hth2.
    + rewrite lookup_insert_ne by assumption. exact Hl.
Qed.

Lemma after_append_only (calls : list Call) (w : World) :
  exists extra : list Transaction,
    simulatedBlockchain (after calls w) = simulatedBlockchain w ++ extra.
Proof.
  revert w. induction calls as [|c calls IH]; intros w.
  - exists []. symmetry. apply app_nil_r.
  - destruct (perform_append_only c w) as [e1 H1].
    destruct (IH (snd (perform c w))) as [e2 H2].
    exists (e1 ++ e2). unfold after in *. simpl.
    rewrite H2, H1, app_assoc. reflexivity.
Qed.

Lemma after_keeps_settled (calls : list Call) (w : World) (l : loc) (d : Details) :
  objects w !! l = Some d -> settled d ->
  objects (after calls w) !! l = Some d.
Proof.
  revert w. induction calls as [|c calls IH]; intros w Hl Hs.
  - exact Hl.
  - unfold after in *. simpl. apply IH; [|exact Hs].
    apply perform_keeps_settled; assumption.
Qed.

(** X6.  In [indexu.js] (and in [part_001], whose conditions contract is the
    same function): after [verifyFoodConditions] has run on a stored event
    with thresholds, the flag of its [details] object is the boolean
    [violations.length > 0], and after every later sequence of calls of the
    three functions the lookup for the event's product contains the event
    iff the violations returned were non-empty. *)
Lemma annotation_persists
    (w : World) (tx : Transaction) (l : loc) (d : Details) (th : Thresholds) :
  In tx (simulatedBlockchain w) ->
  details tx = Some l ->
  objects w !! l = Some d ->
  thresholds d = Some th ->
  exists (r : Conditions.Result) (w' : World) (d' : Details),
    verifyFoodConditions tx w = (Normal r, w') /\
    detailsOf w' tx = Some d' /\
    violationDetected d' = JBool (0 <? length (Conditions.violations r))%nat /\
    forall calls : list Call,
      In tx (findByProductWithViolation (productId tx) (after calls w'))
      <-> Conditions.violations r <> [].
Proof.
  intros Hin Htx Hl Hth.
  pose (b := (0 <? length (snd (checkConditions d th)))%nat).
  exists {| Conditions.status := fst (checkConditions d th);
            Conditions.violations := snd (checkConditions d th) |},
    (storeDetails l (setViolationDetected (JBool b) d) w),
    (setViolationDetected (JBool b) d).
  split; [apply verifyFoodConditions_unfold; assumption|].
  assert (Hl' : objects (storeDetails l (setViolationDetected (JBool b) d) w) !! l
                = Some (setViolationDetected (JBool b) d))
    by (simpl; apply lookup_insert_eq).
  split; [unfold detailsOf; rewrite Htx; exact Hl'|].
  split; [reflexivity|].
  intros calls. simpl.
  assert (Hs : settled (setViolationDetected (JBool b) d)).
  { intros th' Hth'. simpl in Hth'. assert (th' = th) by congruence. subst th'.
    reflexivity. }
  pose proof (after_keeps_settled calls _ l _ Hl' Hs) as Hafter.
  destruct (after_append_only calls
              (storeDetails l (setViolationDetected (JBool b) d) w))
    as [extra Hchain].
  destruct (lookup_strict
              (after calls (storeDetails l (setViolationDetected (JBool b) d) w))
              (productId tx)) as (_ & Hmem & _).
  rewrite Hmem. unfold flaggedTrue, detailsOf. rewrite Htx, Hafter, Hchain.
  simpl. subst b.
  destruct (snd (checkConditions d th)) as [|v vs]; simpl.
  - split; [|congruence].
    intros (_ & _ & d' & Hd' & Hflag).
    injection Hd' as <-. simpl in Hflag. discriminate Hflag.
  - split; [discriminate|]. intros _.
    split; [apply in_or_app; left; exact Hin|].
    split; [reflexivity|]. eexists. split; reflexivity.
Qed.

(** C1 does not hold of revision [part_000].  There
    [verifyFoodConditions] on the stored transport event of the tomato
    batch (30 degrees against the range 20 to 28) returns one violation
    and writes nothing: the flag of the event stays undefined, the lookup
    for the product stays empty, and the payment request that follows is
    released in full (500 * 350 = 175000) where [indexu.js] deducts the
    spoilage (148750).  (See [annotation_persists] for what holds of
    [indexu.js] and [part_001].) *)
Theorem part_000_conditions_leave_flag_unset :
  In hotTransport (simulatedBlockchain worldBeforeHotTransport000) /\
  (exists (r : Conditions.Result) (w' : World) (d' : Details),
     Part000.verifyFoodConditions hotTransport worldBeforeHotTransport000
       = (Normal r, w') /\
     Conditions.violations r =
       [TemperatureViolation (int 30) (int 20) (int 28)] /\
     detailsOf w' hotTransport = Some d' /\
     violationDetected d' = JUndefined /\
     Part000.findByProductWithViolation (productId hotTransport) w' = []) /\
  (exists r : Pricing.Result,
     fst ((addTransaction paymentRequest "t7" ≫= Part000.processFairPricing)
            (worldBeforePayment Part000.runSimulation)) = Normal r /\
     Pricing.status r = "Payment Released"%string /\
     Pricing.amount r = nmul (int 500) (int 350)) /\
  (exists r : Pricing.Result,
     fst ((addTransaction paymentRequest "t7" ≫= processFairPricing)
            (worldBeforePayment runSimulation)) = Normal r /\
     Pricing.status r = "Payment Released"%string /\
     Pricing.amount r = nmul (nsub (int 500) (nmul (lit 15 100) (int 500)))
                          (int 350)).
Proof.
  split; [vm_compute; auto 10|].
  split; [|split].
  - eexists. eexists. eexists.
    split; [vm_compute; reflexivity|].
    split; [reflexivity|]. split; [vm_compute; reflexivity|].
    split; reflexivity.
  - eexists. split; [vm_compute; reflexivity|]. split; reflexivity.
  - eexists. split; [vm_compute; reflexivity|]. split; reflexivity.
Qed.

(** * Further properties of the ledger, the contracts and the loop *)

(** ** [addTransaction] *)

(** X1.  A run of appends of records that carry no [id] of their own
    returns normally; the ids returned are the consecutive integers
    starting at the counter, the ledger is extended by the returned
    transactions in order, and the counter has advanced by their number. *)
Theorem append_ids_consecutive
    (batch : list (TransactionData * string)) (w : World) :
  Forall (fun entry => data_id (fst entry) = None) batch ->
  exists (returned : list Transaction) (w' : World),
    appendAll batch w = (Normal returned, w') /\
    map id returned
      = map (fun i => nextTransactionId w + Z.of_nat i) (seq 0 (length batch)) /\
    simulatedBlockchain w' = simulatedBlockchain w ++ returned /\
    nextTransactionId w' = nextTransactionId w + Z.of_nat (length batch).
Proof.
  intros Hall.
  destruct (appendAll_append_only batch w)
    as (returned & w' & Hrun & _ & Hchain & Hnext & _).
  exists returned, w'. split; [exact Hrun|].
  pose proof (appendAll_ids_without_own_id batch w Hall) as Hids.
  rewrite Hrun in Hids. auto.
Qed.

Lemma append_ids_consecutive_witness :
  exists (returned : list Transaction) (w' : World),
    appendAll tomatoData (initialWorld tomatoStore) = (Normal returned, w') /\
    map id returned = [1001; 1002; 1003; 1004; 1005; 1006; 1007].
Proof.
  destruct (append_ids_consecutive tomatoData (initialWorld tomatoStore))
    as (returned & w' & Hrun & Hids & _).
  - repeat constructor.
  - exists returned, w'. split; [exact Hrun|]. rewrite Hids. reflexivity.
Defined.

Lemma strongly_sorted_snoc (l : list Z) (x : Z) :
  StronglySorted Z.lt l -> Forall (fun y => y < x) l ->
  StronglySorted Z.lt (l ++ [x]).
Proof.
  induction l as [|y l IH]; intros Hs Hall; simpl.
  - constructor; constructor.
  - inversion Hs as [|? ? Hs' Hy]; subst.
    inversion Hall as [|? ? Hyx Hall']; subst.
    constructor; [apply IH; assumption|].
    apply Forall_app. split; [exact Hy|]. constructor; [exact Hyx|constructor].
Qed.

Lemma perform_ids_increasing (c : Call) (w : World) :
  idsIncreasing w -> assignsFreshId c -> idsIncreasing (snd (perform c w)).
Proof.
  intros [Hsorted Hbelow] Hfresh.
  destruct c as [data now|tx|tx]; unfold perform; rewrite snd_then_unit.
  - simpl in Hfresh.
    destruct (addTransaction_appends data now w) as (newTx & -> & _ & Hid).
    specialize (Hid Hfresh). unfold idsIncreasing. simpl. split.
    + rewrite map_app. simpl. apply strongly_sorted_snoc; [exact Hsorted|].
      rewrite Hid. apply Forall_map. exact Hbelow.
    + apply Forall_app. split.
      * rewrite Forall_forall in Hbelow |- *.
        intros tx Htx. specialize (Hbelow tx Htx). simpl. lia.
      * constructor; [lia|constructor].
  - rewrite processFairPricing_same_world. split; assumption.
  - destruct (verifyFoodConditions_world w tx)
      as [-> | (l & d & th & _ & _ & _ & ->)]; split; assumption.
Qed.

(** X2.  Strictly increasing ids below the counter are an invariant of the
    three functions, as long as no appended record carries an [id] of its
    own; in particular the ids of the ledger stay pairwise distinct. *)
Theorem ids_stay_increasing (calls : list Call) (w : World) :
  idsIncreasing w ->
  Forall assignsFreshId calls ->
  idsIncreasing (after calls w) /\
  NoDup (map id (simulatedBlockchain (after calls w))).
Proof.
  intros Hinv Hfresh.
  assert (Hafter : idsIncreasing (after calls w)).
  { revert w Hinv. induction Hfresh as [|c calls Hc Hcalls IH]; intros w Hinv.
    - exact Hinv.
    - unfold after in *. simpl. apply IH.
      apply perform_ids_increasing; assumption. }
  split; [exact Hafter|].
  destruct Hafter as [Hsorted _].
  induction Hsorted as [|x l Hs IH Hx]; constructor; [|exact IH].
  intros Hin. rewrite Forall_forall in Hx.
  specialize (Hx x Hin). lia.
Qed.

Lemma ids_stay_increasing_witness :
  idsIncreasing
    (after [ CallAddTransaction paymentRequest "t1";
             CallProcessFairPricing pricedTransaction;
             CallAddTransaction paymentRequest "t2" ]
       (initialWorld tomatoStore)).
Proof.
  refine (proj1 (ids_stay_increasing _ (initialWorld tomatoStore) _ _)).
  - split; constructor.
  - repeat constructor.
Defined.

(** ** The lookup *)

Lemma detailsOf_same_objects (w1 w2 : World) (tx : Transaction) :
  objects w1 = objects w2 -> detailsOf w1 tx = detailsOf w2 tx.
Proof. intros H. unfold detailsOf. rewrite H. reflexivity. Qed.

(** X3.  The lookup of [indexu.js] returns, in append order, exactly the
    stored events of the product whose flag is the boolean [true], and no
    other list does; an event is returned iff it is stored, of the product,
    and flagged [true]. *)
Theorem lookup_exact (w : World) (p : string) :
  InOrderExactly (flaggedTrue w p) (simulatedBlockchain w)
    (findByProductWithViolation p w) /\
  (forall selection : list Transaction,
     InOrderExactly (flaggedTrue w p) (simulatedBlockchain w) selection ->
     selection = findByProductWithViolation p w) /\
  (forall tx : Transaction,
     In tx (findByProductWithViolation p w) <->
     In tx (simulatedBlockchain w) /\ flaggedTrue w p tx).
Proof.
  assert (Hexact : InOrderExactly (flaggedTrue w p) (simulatedBlockchain w)
                     (findByProductWithViolation p w)).
  { apply filter_in_order_exactly. apply lookup_callback_spec. }
  split; [exact Hexact|]. split.
  - intros selection Hsel.
    exact (in_order_exactly_unique _ _ _ _ Hsel Hexact).
  - intros tx. unfold findByProductWithViolation.
    rewrite filter_In, lookup_callback_spec. reflexivity.
Qed.

(** X4.  A query after an append returns what the query before returned,
    followed by the new transaction when it is of the product and its
    [details] object already carries the flag [true]: appends never
    remove or reorder earlier results. *)
Theorem lookup_after_append
    (data : TransactionData) (now : string) (w : World) (p : string) :
  findByProductWithViolation p (snd (addTransaction data now w))
  = findByProductWithViolation p w ++
    (if String.eqb (data_productId data) p &&
        match data_details data with
        | Some l =>
            match objects w !! l with
            | Some d => strictlyTrue (violationDetected d)
            | None => false
            end
        | None => false
        end
     then [stored data now w]
     else []).
Proof.
  rewrite addTransaction_unfold. fold (stored data now w).
  unfold findByProductWithViolation. simpl.
  rewrite List.filter_app. f_equal.
  simpl. unfold detailsOf. simpl.
  destruct (String.eqb (data_productId data) p); simpl; [|reflexivity].
  destruct (data_details data) as [l|]; [|reflexivity].
  destruct (objects w !! l) as [d|]; [|reflexivity].
  destruct (strictlyTrue (violationDetected d)); reflexivity.
Qed.

Lemma truthy_of_strictlyTrue (v : JsValue) :
  strictlyTrue v = true -> truthy v = true.
Proof. destruct v as [| |[|]| |]; simpl; intros H; try discriminate H; reflexivity. Qed.

(** X5.  The filter of [part_000] returns every event that the filter of
    [indexu.js] returns, in every world.  When every stored flag is one on which
    [=== true] and truthiness agree, the two lookups coincide and the two
    revisions of [processFairPricing] return the same result. *)
Theorem part_000_pricing_agrees (w : World) :
  (forall (p : string) (tx : Transaction),
     In tx (findByProductWithViolation p w) ->
     In tx (Part000.findByProductWithViolation p w)) /\
  (flagsUnambiguous w ->
   (forall p : string,
      Part000.findByProductWithViolation p w = findByProductWithViolation p w) /\
   (forall tx : Transaction,
      Part000.processFairPricing tx w = processFairPricing tx w)).
Proof.
  split.
  - intros p tx. unfold Part000.findByProductWithViolation,
      findByProductWithViolation.
    rewrite !filter_In, !andb_true_iff. intros (Hin & Hp & Hflag).
    split; [exact Hin|]. split; [exact Hp|].
    destruct (detailsOf w tx) as [d|]; [|discriminate].
    apply truthy_of_strictlyTrue. exact Hflag.
  - intros Hflags.
    assert (Hsame : forall p,
              Part000.findByProductWithViolation p w
              = findByProductWithViolation p w).
    { intros p. unfold Part000.findByProductWithViolation,
        findByProductWithViolation.
      assert (Hgen : forall l : list Transaction,
                (forall tx, In tx l -> In tx (simulatedBlockchain w)) ->
                List.filter
                  (fun tx => String.eqb (productId tx) p &&
                     match detailsOf w tx with
                     | Some d => truthy (violationDetected d)
                     | None => false
                     end) l
                = List.filter
                    (fun tx => String.eqb (productId tx) p &&
                       match detailsOf w tx with
                       | Some d => strictlyTrue (violationDetected d)
                       | None => false
                       end) l).
      { induction l as [|tx l IH]; intros Hsub; [reflexivity|]. simpl.
        rewrite IH by (intros tx' Hin; apply Hsub; right; exact Hin).
        destruct (detailsOf w tx) as [d|] eqn:Hd; [|reflexivity].
        rewrite (Hflags tx d (Hsub tx (or_introl eq_refl)) Hd). reflexivity. }
      apply Hgen. auto. }
    split; [exact Hsame|].
    intros tx. unfold Part000.processFairPricing, processFairPricing,
      mbind, JS_bind, destructureDetails, reads.
    destruct (detailsOf w tx) as [d|]; [|reflexivity].
    rewrite Hsame. reflexivity.
Qed.

Lemma part_000_pricing_agrees_witness :
  Part000.processFairPricing pricedTransaction pricedWorld
  = processFairPricing pricedTransaction pricedWorld.
Proof.
  refine (proj2 (proj2 (part_000_pricing_agrees pricedWorld) _) pricedTransaction).
  intros tx d Hin Hd.
  vm_compute in Hin.
  repeat (destruct Hin as [<- | Hin];
          [vm_compute in Hd; injection Hd as <-; reflexivity|]).
  destruct Hin.
Defined.

(** ** [verifyFoodConditions] *)

Lemma annotation_persists_witness :
  exists (r : Conditions.Result) (w' : World),
    verifyFoodConditions hotTransport worldBeforeHotTransport = (Normal r, w') /\
    In hotTransport
      (findByProductWithViolation "TOMATO_BATCH_001"
         (after [ CallAddTransaction paymentRequest "t7";
                  CallProcessFairPricing pricedTransaction ] w')).
Proof.
  destruct (annotation_persists worldBeforeHotTransport hotTransport 5%positive
              (conditionDetails 30 50 20 28 40 60)
              {| minTemp := int 20; maxTemp := int 28;
                 minHumidity := int 40; maxHumidity := int 60 |})
    as (r & w' & d' & Hrun & _ & _ & Hlater).
  - vm_compute. auto 10.
  - reflexivity.
  - reflexivity.
  - reflexivity.
  - exists r, w'. split; [exact Hrun|].
    apply (Hlater [ CallAddTransaction paymentRequest "t7";
                    CallProcessFairPricing pricedTransaction ]).
    assert (Hr : fst (verifyFoodConditions hotTransport worldBeforeHotTransport)
                 = Normal r) by (rewrite Hrun; reflexivity).
    vm_compute in Hr. injection Hr as <-. discriminate.
Defined.

Lemma verifyFoodConditions_throws_same_world (w : World) (tx : Transaction) :
  fst (verifyFoodConditions tx w) = ThrowTypeError ->
  snd (verifyFoodConditions tx w) = w.
Proof.
  destruct (verifyFoodConditions_world w tx)
    as [H | (l & d & th & Htx & Hl & Hth & _)]; [intros _; exact H|].
  rewrite (verifyFoodConditions_unfold w tx l d th Htx Hl Hth). discriminate.
Qed.

(** X7.  [verifyFoodConditions] throws a TypeError exactly when the
    transaction has no [details] object or the object has no [thresholds];
    when it throws it has written nothing. *)
Theorem conditions_throw_iff (w : World) (tx : Transaction) :
  (fst (verifyFoodConditions tx w) = ThrowTypeError <->
   detailsOf w tx = None \/
   exists d : Details, detailsOf w tx = Some d /\ thresholds d = None) /\
  (fst (verifyFoodConditions tx w) = ThrowTypeError ->
   snd (verifyFoodConditions tx w) = w).
Proof.
  split; [|apply verifyFoodConditions_throws_same_world].
  unfold detailsOf.
  destruct (details tx) as [l|] eqn:Htx.
  - destruct (objects w !! l) as [d|] eqn:Hl.
    + destruct (thresholds d) as [th|] eqn:Hth.
      * rewrite (verifyFoodConditions_unfold w tx l d th Htx Hl Hth). simpl.
        split; [discriminate|].
        intros [H | (d' & Hd' & Hnone)]; [discriminate|]. congruence.
      * split; [intros _; right; exists d; auto|]. intros _.
        unfold verifyFoodConditions, mbind, JS_bind, destructureDetails,
          destructureThresholds, detailsOf.
        rewrite Htx, Hl, Hth. reflexivity.
    + split; [auto|]. intros _.
      unfold verifyFoodConditions, mbind, JS_bind, destructureDetails, detailsOf.
      rewrite Htx, Hl. reflexivity.
  - split; [auto|]. intros _.
    unfold verifyFoodConditions, mbind, JS_bind, destructureDetails, detailsOf.
    rewrite Htx. reflexivity.
Qed.

(** X8.  [verifyFoodConditions] changes nothing but the flag of the
    [details] object it evaluates: the ledger and the counter are the same,
    every other object of the store is the same, and the evaluated object
    differs from the one before at most in [violationDetected]. *)
Theorem conditions_frame (w : World) (tx : Transaction) :
  let w' := snd (verifyFoodConditions tx w) in
  simulatedBlockchain w' = simulatedBlockchain w /\
  nextTransactionId w' = nextTransactionId w /\
  (forall l : loc, details tx <> Some l -> objects w' !! l = objects w !! l) /\
  (forall (l : loc) (d : Details),
     details tx = Some l -> objects w !! l = Some d ->
     exists v : JsValue, objects w' !! l = Some (setViolationDetected v d)).
Proof.
  simpl.
  destruct (verifyFoodConditions_world w tx)
    as [-> | (l & d & th & Htx & Hl & Hth & ->)].
  - repeat split; try reflexivity.
    intros l d _ Hl. exists (violationDetected d).
    rewrite Hl. f_equal. symmetry. apply setViolationDetected_same. reflexivity.
  - simpl. split; [reflexivity|]. split; [reflexivity|]. split.
    + intros l' Hne. apply lookup_insert_ne. congruence.
    + intros l' d' Htx' Hl'.
      assert (l' = l) by congruence. subst l'.
      assert (d' = d) by congruence. subst d'.
      eexists. apply lookup_insert_eq.
Qed.

(** X9.  Running [verifyFoodConditions] a second time on the same
    transaction returns the same completion and leaves the world of the
    first run as it is. *)
Theorem conditions_idempotent (w : World) (tx : Transaction) :
  verifyFoodConditions tx (snd (verifyFoodConditions tx w))
  = (fst (verifyFoodConditions tx w), snd (verifyFoodConditions tx w)).
Proof.
  destruct (details tx) as [l|] eqn:Htx.
  - destruct (objects w !! l) as [d|] eqn:Hl.
    + destruct (thresholds d) as [th|] eqn:Hth.
      * rewrite (verifyFoodConditions_unfold w tx l d th Htx Hl Hth). simpl.
        set (b := (0 <? length (snd (checkConditions d th)))%nat).
        rewrite (verifyFoodConditions_unfold _ tx l
                   (setViolationDetected (JBool b) d) th Htx);
          [|simpl; apply lookup_insert_eq|exact Hth].
        rewrite checkConditions_setViolationDetected. fold b.
        f_equal. unfold storeDetails. simpl. f_equal.
        apply insert_insert_eq.
      * assert (E : verifyFoodConditions tx w = (ThrowTypeError, w)).
        { unfold verifyFoodConditions, mbind, JS_bind, destructureDetails,
            destructureThresholds, detailsOf.
          rewrite Htx, Hl, Hth. reflexivity. }
        rewrite E. simpl. exact E.
    + assert (E : verifyFoodConditions tx w = (ThrowTypeError, w)).
      { unfold verifyFoodConditions, mbind, JS_bind, destructureDetails, detailsOf.
        rewrite Htx, Hl. reflexivity. }
      rewrite E. simpl. exact E.
  - assert (E : verifyFoodConditions tx w = (ThrowTypeError, w)).
    { unfold verifyFoodConditions, mbind, JS_bind, destructureDetails, detailsOf.
      rewrite Htx. reflexivity. }
    rewrite E. simpl. exact E.
Qed.

(** X10.  A reading that is absent never violates: on a [details] object
    with thresholds but neither [currentTempCelsius] nor
    [currentHumidityPercent], [verifyFoodConditions] returns
    "Conditions Met" with no message and writes the flag [false]. *)
Theorem conditions_absent_readings_pass
    (w : World) (tx : Transaction) (l : loc) (d : Details) (th : Thresholds) :
  details tx = Some l ->
  objects w !! l = Some d ->
  thresholds d = Some th ->
  currentTempCelsius d = None ->
  currentHumidityPercent d = None ->
  verifyFoodConditions tx w =
    (Normal {| Conditions.status := "Conditions Met";
               Conditions.violations := [] |},
     storeDetails l (setViolationDetected (JBool false) d) w).
Proof.
  intros Htx Hl Hth Htemp Hhum.
  rewrite (verifyFoodConditions_unfold w tx l d th Htx Hl Hth).
  unfold checkConditions, ngt, nlt. rewrite Htemp, Hhum.
  destruct (maxTemp th), (maxHumidity th); reflexivity.
Qed.

Lemma conditions_absent_readings_pass_witness :
  fst (verifyFoodConditions sparseReceipt sparseWorld) =
    Normal {| Conditions.status := "Conditions Met";
              Conditions.violations := [] |}.
Proof.
  rewrite (conditions_absent_readings_pass sparseWorld sparseReceipt 1%positive
             _ _ eq_refl eq_refl eq_refl eq_refl eq_refl).
  reflexivity.
Defined.

(** X11.  [addTransaction] stores the caller's [details] object by
    reference.  When one record is appended twice and
    [verifyFoodConditions] finds a violation on the second stored copy,
    the first copy is flagged as well: both are returned by the lookup for
    the product, and the caller's object carries the flag. *)
Theorem shared_details_flag_both
    (data : TransactionData) (now1 now2 : string) (w : World)
    (l : loc) (d : Details) (th : Thresholds) :
  data_details data = Some l ->
  objects w !! l = Some d ->
  thresholds d = Some th ->
  temperatureFires d th || humidityFires d th = true ->
  let w1 := snd (addTransaction data now1 w) in
  let w2 := snd (addTransaction data now2 w1) in
  let first := stored data now1 w in
  let second := stored data now2 w1 in
  let w3 := snd (verifyFoodConditions second w2) in
  objects w3 !! l = Some (setViolationDetected (JBool true) d) /\
  In first (findByProductWithViolation (data_productId data) w3) /\
  In second (findByProductWithViolation (data_productId data) w3).
Proof.
  intros Hdata Hl Hth Hfires w1 w2 first second w3.
  assert (Hl2 : objects w2 !! l = Some d) by exact Hl.
  assert (Hsecond : details second = Some l) by exact Hdata.
  assert (Hw3 : w3 = storeDetails l (setViolationDetected (JBool true) d) w2).
  { unfold w3.
    rewrite (verifyFoodConditions_unfold w2 second l d th Hsecond Hl2 Hth).
    simpl. rewrite checkConditions_length, Hfires. reflexivity. }
  assert (Hobj : objects w3 !! l = Some (setViolationDetected (JBool true) d)).
  { rewrite Hw3. simpl. apply lookup_insert_eq. }
  split; [exact Hobj|].
  assert (Hchain : simulatedBlockchain w3
                   = (simulatedBlockchain w ++ [first]) ++ [second]).
  { rewrite Hw3. reflexivity. }
  assert (Hin : forall tx, details tx = Some l ->
                  productId tx = data_productId data ->
                  In tx (simulatedBlockchain w3) ->
                  In tx (findByProductWithViolation (data_productId data) w3)).
  { intros tx Htx Hp Hstored. unfold findByProductWithViolation.
    apply filter_In. split; [exact Hstored|].
    apply lookup_callback_spec. split; [exact Hp|].
    eexists. unfold detailsOf. rewrite Htx. split; [exact Hobj|reflexivity]. }
  split; apply Hin; try reflexivity; try exact Hdata; rewrite Hchain.
  - apply in_or_app. left. apply in_or_app. right. left. reflexivity.
  - apply in_or_app. right. left. reflexivity.
Qed.

Lemma shared_details_flag_both_witness :
  objects
    (snd (verifyFoodConditions
            (stored (record "TRANSPORT" "logistics_NGR_002" "TOMATO_BATCH_001"
                       "En route to Abuja Retailer" 5) "t2"
               (snd (addTransaction
                       (record "TRANSPORT" "logistics_NGR_002"
                          "TOMATO_BATCH_001" "En route to Abuja Retailer" 5)
                       "t1" (initialWorld tomatoStore))))
            (snd (addTransaction
                    (record "TRANSPORT" "logistics_NGR_002" "TOMATO_BATCH_001"
                       "En route to Abuja Retailer" 5) "t2"
                    (snd (addTransaction
                            (record "TRANSPORT" "logistics_NGR_002"
                               "TOMATO_BATCH_001" "En route to Abuja Retailer" 5)
                            "t1" (initialWorld tomatoStore)))))))
  !! 5%positive
  = Some (setViolationDetected (JBool true) (conditionDetails 30 50 20 28 40 60)).
Proof.
  refine (proj1 (shared_details_flag_both
                   (record "TRANSPORT" "logistics_NGR_002" "TOMATO_BATCH_001"
                      "En route to Abuja Retailer" 5)
                   "t1" "t2" (initialWorld tomatoStore) 5%positive
                   (conditionDetails 30 50 20 28 40 60)
                   {| minTemp := int 20; maxTemp := int 28;
                      minHumidity := int 40; maxHumidity := int 60 |}
                   eq_refl eq_refl eq_refl _)).
  vm_compute. reflexivity.
Defined.

(** ** [processFairPricing] *)

(** X12.  [processFairPricing] throws a TypeError exactly when the
    transaction has no [details] object.  A missing [quantityKg] or
    [agreedPricePerKg] is no error: with both flags truthy the payment is
    released with the amount NaN. *)
Theorem pricing_missing_fields (w : World) (tx : Transaction) :
  (fst (processFairPricing tx w) = ThrowTypeError <-> detailsOf w tx = None) /\
  (forall d : Details,
     detailsOf w tx = Some d ->
     truthy (qualityVerified d) = true ->
     truthy (deliveryConfirmed d) = true ->
     quantityKg d = None \/ agreedPricePerKg d = None ->
     processFairPricing tx w =
       (Normal {| Pricing.status := "Payment Released";
                  Pricing.amount := NaN |}, w)).
Proof.
  split.
  - destruct (detailsOf w tx) as [d|] eqn:Hd.
    + rewrite (processFairPricing_unfold w tx d Hd). simpl.
      split; discriminate.
    + rewrite (processFairPricing_throws w tx Hd). simpl. split; reflexivity.
  - intros d Hd Hqv Hdc Hmissing.
    rewrite (processFairPricing_unfold w tx d Hd).
    unfold pricingDecision. rewrite Hqv, Hdc. simpl.
    do 3 f_equal.
    destruct Hmissing as [-> | ->]; simpl.
    + reflexivity.
    + destruct (nsub _ _); reflexivity.
Qed.

(** X13.  With a non-negative quantity, price and spoilage rate, the
    amount returned by [processFairPricing] never exceeds
    [quantityKg * agreedPricePerKg]: a recorded violation can only lower
    the payment. *)
Theorem pricing_amount_at_most_full
    (w : World) (tx : Transaction) (d : Details) (q p rate : Qc) :
  detailsOf w tx = Some d ->
  quantityKg d = Some q -> (0 <= q)%Qc ->
  agreedPricePerKg d = Some p -> (0 <= p)%Qc ->
  spoilageRateOrDefault d = Some rate -> (0 <= rate)%Qc ->
  exists (r : Pricing.Result) (a : Qc),
    processFairPricing tx w = (Normal r, w) /\
    Pricing.amount r = Some a /\
    (a <= q * p)%Qc.
Proof.
  intros Hd Hq Hq0 Hp Hp0 Hrate Hr0.
  rewrite (processFairPricing_unfold w tx d Hd).
  assert (Hfull : (0 <= q * p)%Qc) by (apply Qcmult_nonneg_nonneg; assumption).
  unfold pricingDecision.
  destruct (truthy (qualityVerified d) && truthy (deliveryConfirmed d)).
  - unfold spoilageKg. rewrite Hrate, Hq, Hp.
    destruct (0 <? _)%nat; simpl; eexists; eexists;
      (split; [reflexivity|]); (split; [reflexivity|]).
    + apply Qcmult_le_mono_nonneg_r; [exact Hp0|].
      apply Qcle_minus_iff.
      replace (q + - (q - rate * q))%Qc with (rate * q)%Qc by ring.
      apply Qcmult_nonneg_nonneg; assumption.
    + replace (q - Q2Qc (0 # 1))%Qc with q; [apply Qcle_refl|].
      change (Q2Qc (0 # 1)) with 0%Qc. ring.
  - destruct (negb (truthy (qualityVerified d)));
      [|destruct (negb (truthy (deliveryConfirmed d)))];
      eexists; exists 0%Qc; (split; [reflexivity|]);
      (split; [reflexivity|]); exact Hfull.
Qed.

Lemma pricing_amount_at_most_full_witness :
  exists (r : Pricing.Result) (a : Qc),
    processFairPricing pricedTransaction pricedWorld = (Normal r, pricedWorld) /\
    Pricing.amount r = Some a /\
    (a <= Q2Qc (500 # 1) * Q2Qc (350 # 1))%Qc.
Proof.
  apply (pricing_amount_at_most_full pricedWorld pricedTransaction
           (paymentDetails 500 350 true true (Some (Q2Qc (15 # 100))))
           (Q2Qc (500 # 1)) (Q2Qc (350 # 1)) (Q2Qc (15 # 100))).
  - vm_compute. reflexivity.
  - reflexivity.
  - vm_compute. discriminate.
  - reflexivity.
  - vm_compute. discriminate.
  - reflexivity.
  - vm_compute. discriminate.
Defined.

Lemma pricing_missing_fields_witness :
  processFairPricing sparseRequest sparseWorld =
    (Normal {| Pricing.status := "Payment Released"; Pricing.amount := NaN |},
     sparseWorld).
Proof.
  apply (proj2 (pricing_missing_fields sparseWorld sparseRequest)
           {| qualityVerified := JBool true; deliveryConfirmed := JBool true;
              quantityKg := None; agreedPricePerKg := int 350;
              spoilageRate := None;
              currentTempCelsius := None; currentHumidityPercent := None;
              thresholds := None; violationDetected := JUndefined |}).
  - reflexivity.
  - reflexivity.
  - reflexivity.
  - left. reflexivity.
Defined.

(** ** The loop of [runSimulation] *)

Lemma processEventWith_unfold
    (pricing : Transaction -> JS Pricing.Result)
    (conditions : Transaction -> JS Conditions.Result)
    (data : TransactionData) (now : string) (w : World) :
  processEventWith pricing conditions data now w =
  let newTx := stored data now w in
  let w1 := snd (addTransaction data now w) in
  if String.eqb (data_eventType data) "PAYMENT_REQUEST" then
    (pricing newTx;; mret tt) w1
  else if isConditionBearing (data_eventType data) then
    match detailsOf w1 newTx with
    | Some d =>
        if hasConditionFields d
        then (conditions newTx;; mret tt) w1
        else (Normal tt, w1)
    | None => (ThrowTypeError, w1)
    end
  else (Normal tt, w1).
Proof.
  unfold processEventWith, mbind, JS_bind. simpl.
  destruct (String.eqb (data_eventType data) "PAYMENT_REQUEST"); [reflexivity|].
  destruct (isConditionBearing (data_eventType data)); [|reflexivity].
  unfold destructureDetails, stored.
  match goal with
  | |- context [detailsOf ?w0 ?t] => destruct (detailsOf w0 t) as [d|]
  end; [|reflexivity].
  destruct (hasConditionFields d); reflexivity.
Qed.

Lemma runLoopWith_cons
    (pricing : Transaction -> JS Pricing.Result)
    (conditions : Transaction -> JS Conditions.Result)
    (data : TransactionData) (now : string)
    (rest : list (TransactionData * string)) (w : World) :
  runLoopWith pricing conditions ((data, now) :: rest) w =
  match processEventWith pricing conditions data now w with
  | (Normal _, w1) => runLoopWith pricing conditions rest w1
  | (ThrowTypeError, w1) => (ThrowTypeError, w1)
  end.
Proof. reflexivity. Qed.

Lemma then_unit_normal {A : Type} (m : JS A) (w w1 : World) (a : A) :
  m w = (Normal a, w1) -> (m;; mret tt) w = (Normal tt, w1).
Proof. intros H. unfold mbind, JS_bind. rewrite H. reflexivity. Qed.

Lemma then_unit_throw {A : Type} (m : JS A) (w w1 : World) :
  m w = (ThrowTypeError, w1) -> (m;; mret tt) w = (ThrowTypeError, w1).
Proof. intros H. unfold mbind, JS_bind. rewrite H. reflexivity. Qed.

(** X14.  The loops of [part_001] and [indexu.js] are the same function:
    on every batch and every world they end in the same completion and
    the same world. *)
Theorem part_001_simulation_same
    (batch : list (TransactionData * string)) (w : World) :
  Part001.runSimulation batch w = runSimulation batch w.
Proof.
  unfold Part001.runSimulation, runSimulation.
  revert w. induction batch as [|[data now] rest IH]; intros w; [reflexivity|].
  rewrite !runLoopWith_cons.
  assert (Hstep :
    processEventWith processFairPricing Part001.verifyFoodConditions data now w
    = processEventWith processFairPricing verifyFoodConditions data now w).
  { rewrite !processEventWith_unfold. simpl.
    destruct (String.eqb (data_eventType data) "PAYMENT_REQUEST"); [reflexivity|].
    destruct (isConditionBearing (data_eventType data)); [|reflexivity].
    destruct (detailsOf _ _) as [d|]; [|reflexivity].
    destruct (hasConditionFields d); [|reflexivity].
    unfold mbind, JS_bind. rewrite verifyFoodConditions_part_001_same.
    reflexivity. }
  rewrite Hstep.
  destruct (processEventWith processFairPricing verifyFoodConditions data now w)
    as [[[]|] w1]; [apply IH|reflexivity].
Qed.

(** X15.  The loop of [part_000] never writes to a [details] object: after
    any batch the object store is the one it started with, so no event is
    ever flagged by this revision. *)
Theorem part_000_simulation_writes_no_object
    (batch : list (TransactionData * string)) (w : World) :
  objects (snd (Part000.runSimulation batch w)) = objects w.
Proof.
  unfold Part000.runSimulation.
  revert w. induction batch as [|[data now] rest IH]; intros w; [reflexivity|].
  rewrite runLoopWith_cons.
  assert (Hstep :
    objects (snd (processEventWith Part000.processFairPricing
                    Part000.verifyFoodConditions data now w)) = objects w).
  { rewrite processEventWith_unfold. simpl.
    destruct (String.eqb (data_eventType data) "PAYMENT_REQUEST").
    - rewrite snd_then_unit, pricing_frame_part_000. reflexivity.
    - destruct (isConditionBearing (data_eventType data)); [|reflexivity].
      destruct (detailsOf _ _) as [d|]; [|reflexivity].
      destruct (hasConditionFields d); [|reflexivity].
      rewrite snd_then_unit, verifyFoodConditions_part_000_frame. reflexivity. }
  destruct (processEventWith Part000.processFairPricing
              Part000.verifyFoodConditions data now w) as [[[]|] w1];
    simpl in Hstep; [rewrite IH|]; exact Hstep.
Qed.

Lemma hasConditionFields_thresholds (d : Details) :
  hasConditionFields d = true -> exists th : Thresholds, thresholds d = Some th.
Proof.
  unfold hasConditionFields.
  destruct (currentTempCelsius d), (currentHumidityPercent d), (thresholds d) as [th|];
    intros H; try discriminate H. exists th. reflexivity.
Qed.

(** One iteration on a record that has a [details] object returns
    normally, appends the record, and keeps every object of the store in
    place. *)
Lemma processEvent_with_details
    (data : TransactionData) (now : string) (w : World) :
  hasDetailsObject w (data, now) ->
  exists w1 : World,
    processEventWith processFairPricing verifyFoodConditions data now w
      = (Normal tt, w1) /\
    simulatedBlockchain w1 = simulatedBlockchain w ++ [stored data now w] /\
    nextTransactionId w1 = nextTransactionId w + 1 /\
    (forall l : loc, is_Some (objects w !! l) -> is_Some (objects w1 !! l)).
Proof.
  intros (l & Hdata & [d Hl]). simpl in Hdata.
  rewrite processEventWith_unfold. simpl. fold (stored data now w).
  set (w1 := {| simulatedBlockchain := simulatedBlockchain w ++ [stored data now w];
                nextTransactionId := nextTransactionId w + 1;
                objects := objects w |}).
  assert (Hd : detailsOf w1 (stored data now w) = Some d)
    by (unfold detailsOf; simpl; rewrite Hdata; exact Hl).
  destruct (String.eqb (data_eventType data) "PAYMENT_REQUEST").
  - exists w1. split; [|auto].
    eapply then_unit_normal. apply processFairPricing_unfold. exact Hd.
  - destruct (isConditionBearing (data_eventType data)); [|exists w1; auto].
    rewrite Hd. destruct (hasConditionFields d) eqn:Hguard; [|exists w1; auto].
    destruct (hasConditionFields_thresholds d Hguard) as [th Hth].
    eexists. split.
    + eapply then_unit_normal.
      apply (verifyFoodConditions_unfold w1 (stored data now w) l d th);
        [exact Hdata|exact Hl|exact Hth].
    + simpl. split; [reflexivity|]. split; [reflexivity|].
      intros l' Hsome. destruct (decide (l = l')) as [<-|Hne].
      * rewrite lookup_insert_eq. eauto.
      * rewrite lookup_insert_ne by assumption. exact Hsome.
Qed.

Lemma appendAll_ledger_only
    (batch : list (TransactionData * string)) (w1 w2 : World) :
  simulatedBlockchain w1 = simulatedBlockchain w2 ->
  nextTransactionId w1 = nextTransactionId w2 ->
  simulatedBlockchain (snd (appendAll batch w1))
  = simulatedBlockchain (snd (appendAll batch w2)).
Proof.
  revert w1 w2. induction batch as [|[data now] rest IH]; intros w1 w2 Hc Hn.
  - exact Hc.
  - rewrite !appendAll_cons, !addTransaction_unfold. simpl.
    match goal with
    | |- context [appendAll rest ?a] =>
        match goal with
        | |- simulatedBlockchain (snd ?lhs) = simulatedBlockchain (snd ?rhs) =>
            match rhs with
            | context [appendAll rest ?b] =>
                specialize (IH a b);
                destruct (appendAll rest a) as [[ra|] wa];
                destruct (appendAll rest b) as [[rb|] wb]
            end
        end
    end; simpl in *; apply IH; rewrite ?Hc, ?Hn; reflexivity.
Qed.

(** X16.  When every record of the batch has a [details] object in the
    store, the loop of [indexu.js] runs to the end without a TypeError;
    the ledger it leaves is the one that plain appends of the batch would
    leave, and the counter has advanced by the size of the batch. *)
Theorem simulation_total
    (batch : list (TransactionData * string)) (w : World) :
  Forall (hasDetailsObject w) batch ->
  exists w' : World,
    runSimulation batch w = (Normal tt, w') /\
    simulatedBlockchain w' = simulatedBlockchain (snd (appendAll batch w)) /\
    nextTransactionId w' = nextTransactionId w + Z.of_nat (length batch).
Proof.
  unfold runSimulation.
  assert (Hgen : forall (wa : World),
            simulatedBlockchain w = simulatedBlockchain wa ->
            nextTransactionId w = nextTransactionId wa ->
            Forall (hasDetailsObject w) batch ->
            exists w' : World,
              runLoopWith processFairPricing verifyFoodConditions batch w
                = (Normal tt, w') /\
              simulatedBlockchain w'
                = simulatedBlockchain (snd (appendAll batch wa)) /\
              nextTransactionId w'
                = nextTransactionId w + Z.of_nat (length batch)).
  { revert w. induction batch as [|[data now] rest IH]; intros w wa Hc Hn Hall.
    - exists w. simpl. rewrite Z.add_0_r. auto.
    - inversion Hall as [|entry rest' Hhead Hrest]; subst.
      destruct (processEvent_with_details data now w Hhead)
        as (w1 & Hstep & Hchain & Hnext & Hdom).
      assert (Hrest1 : Forall (hasDetailsObject w1) rest).
      { eapply List.Forall_impl; [|exact Hrest].
        intros entry (l & Hl & Hsome). exists l. split; [exact Hl|].
        apply Hdom. exact Hsome. }
      destruct (IH w1 (snd (addTransaction data now wa))) as (w' & Hrun & Hc' & Hn').
      + rewrite addTransaction_unfold. simpl. rewrite Hchain.
        unfold stored. rewrite Hc, Hn. reflexivity.
      + rewrite addTransaction_unfold. simpl. rewrite Hnext, Hn. reflexivity.
      + exact Hrest1.
      + exists w'. rewrite runLoopWith_cons, Hstep. split; [exact Hrun|].
        split.
        * destruct (addTransaction_appends data now wa) as (newTx & Hadd & _).
          rewrite Hadd in Hc'. simpl in Hc'.
          rewrite Hc', appendAll_cons, Hadd.
          destruct (appendAll rest _) as [[others|] w2]; reflexivity.
        * rewrite Hn', Hnext.
          change (length ((data, now) :: rest)) with (S (length rest)). lia. }
  intros Hall. apply (Hgen w); auto.
Qed.

Lemma simulation_total_witness :
  exists w' : World,
    runSimulation tomatoData (initialWorld tomatoStore) = (Normal tt, w') /\
    nextTransactionId w' = 1008.
Proof.
  destruct (simulation_total tomatoData (initialWorld tomatoStore))
    as (w' & Hrun & _ & Hnext).
  - repeat constructor; eexists; (split; [reflexivity|]); eexists; reflexivity.
  - exists w'. split; [exact Hrun|]. rewrite Hnext. reflexivity.
Defined.

(** X17.  A record without [details] whose type the loop dispatches (a
    payment request or a condition-bearing event) ends the loop with a
    TypeError: the record itself has been appended, the counter has moved,
    and the records after it are not processed. *)
Theorem simulation_stops_without_details
    (data : TransactionData) (now : string)
    (rest : list (TransactionData * string)) (w : World) :
  data_details data = None ->
  isDispatched (data_eventType data) = true ->
  runSimulation ((data, now) :: rest) w
  = (ThrowTypeError,
     {| simulatedBlockchain := simulatedBlockchain w ++ [stored data now w];
        nextTransactionId := nextTransactionId w + 1;
        objects := objects w |}).
Proof.
  intros Hnone Hdisp. unfold runSimulation.
  rewrite runLoopWith_cons, processEventWith_unfold. simpl.
  fold (stored data now w).
  set (w1 := {| simulatedBlockchain := simulatedBlockchain w ++ [stored data now w];
                nextTransactionId := nextTransactionId w + 1;
                objects := objects w |}).
  assert (Hd : detailsOf w1 (stored data now w) = None)
    by (unfold detailsOf; simpl; rewrite Hnone; reflexivity).
  unfold isDispatched in Hdisp.
  destruct (String.eqb (data_eventType data) "PAYMENT_REQUEST").
  - rewrite (then_unit_throw _ w1 w1 (processFairPricing_throws _ _ Hd)).
    reflexivity.
  - simpl in Hdisp. rewrite Hdisp, Hd. reflexivity.
Qed.

Lemma simulation_stops_without_details_witness :
  fst (runSimulation ((requestWithoutDetails, "t1"%string) :: tomatoData)
         (initialWorld tomatoStore)) = ThrowTypeError /\
  length (simulatedBlockchain
            (snd (runSimulation
                    ((requestWithoutDetails, "t1"%string) :: tomatoData)
                    (initialWorld tomatoStore)))) = 1%nat.
Proof.
  rewrite (simulation_stops_without_details requestWithoutDetails "t1"
             tomatoData (initialWorld tomatoStore) eq_refl eq_refl).
  split; reflexivity.
Defined.

(** X18.  A record that the loop does not dispatch is only appended: this
    is so for every type other than PAYMENT_REQUEST, TRANSPORT,
    WAREHOUSE_RECEIPT and RETAIL_RECEIPT (with or without [details]), and
    for a condition-bearing record whose [details] lack a reading or the
    thresholds.  The loop goes on with the next record. *)
Theorem simulation_skips_undispatched
    (data : TransactionData) (now : string)
    (rest : list (TransactionData * string)) (w : World) :
  isDispatched (data_eventType data) = false \/
  (isConditionBearing (data_eventType data) = true /\
   exists (l : loc) (d : Details),
     data_details data = Some l /\ objects w !! l = Some d /\
     hasConditionFields d = false) ->
  runSimulation ((data, now) :: rest) w
  = runSimulation rest
      {| simulatedBlockchain := simulatedBlockchain w ++ [stored data now w];
         nextTransactionId := nextTransactionId w + 1;
         objects := objects w |}.
Proof.
  intros Hcase. unfold runSimulation.
  rewrite runLoopWith_cons, processEventWith_unfold. simpl.
  destruct Hcase as [Hskip | (Hcond & l & d & Hdata & Hl & Hguard)].
  - unfold isDispatched in Hskip. apply orb_false_iff in Hskip.
    destruct Hskip as [-> ->]. reflexivity.
  - assert (Hpay : String.eqb (data_eventType data) "PAYMENT_REQUEST" = false).
    { apply not_true_iff_false. intros Heq. apply String.eqb_eq in Heq.
      rewrite Heq in Hcond. discriminate Hcond. }
    rewrite Hpay, Hcond. unfold detailsOf, stored. simpl.
    rewrite Hdata, Hl, Hguard. reflexivity.
Qed.

Lemma simulation_skips_undispatched_witness :
  runSimulation [(harvestWithoutDetails, "t1"%string)] (initialWorld tomatoStore)
  = (Normal tt,
     {| simulatedBlockchain :=
          [stored harvestWithoutDetails "t1" (initialWorld tomatoStore)];
        nextTransactionId := 1002;
        objects := tomatoStore |}).
Proof.
  rewrite (simulation_skips_undispatched harvestWithoutDetails "t1" []
             (initialWorld tomatoStore)).
  - reflexivity.
  - left. reflexivity.
Defined.

(** ** The two contracts together *)

(** X19.  The flag is the only link between the two contracts: once
    [verifyFoodConditions] has found a violation on a stored event, a
    payment request of the same product with both flags true is released
    with the spoilage deducted,
    [(quantityKg - spoilageRate * quantityKg) * agreedPricePerKg]. *)
Theorem violation_then_spoilage
    (w : World) (tx request : Transaction) (l l2 : loc)
    (d d2 : Details) (th : Thresholds) :
  In tx (simulatedBlockchain w) ->
  details tx = Some l ->
  objects w !! l = Some d ->
  thresholds d = Some th ->
  temperatureFires d th || humidityFires d th = true ->
  productId request = productId tx ->
  details request = Some l2 ->
  l2 <> l ->
  objects w !! l2 = Some d2 ->
  qualityVerified d2 = JBool true ->
  deliveryConfirmed d2 = JBool true ->
  let w' := snd (verifyFoodConditions tx w) in
  processFairPricing request w' =
    (Normal {| Pricing.status := "Payment Released";
               Pricing.amount :=
                 nmul (nsub (quantityKg d2)
                         (nmul (spoilageRateOrDefault d2) (quantityKg d2)))
                      (agreedPricePerKg d2) |}, w').
Proof.
  intros Hin Htx Hl Hth Hfires Hp Hreq Hne Hl2 Hqv Hdc w'.
  assert (Hw' : w' = storeDetails l (setViolationDetected (JBool true) d) w).
  { unfold w'. rewrite (verifyFoodConditions_unfold w tx l d th Htx Hl Hth).
    simpl. rewrite checkConditions_length, Hfires. reflexivity. }
  assert (Hd2 : detailsOf w' request = Some d2).
  { rewrite Hw'. unfold detailsOf. rewrite Hreq. simpl.
    rewrite lookup_insert_ne by congruence. exact Hl2. }
  assert (Hfound : In tx (findByProductWithViolation (productId request) w')).
  { unfold findByProductWithViolation. apply filter_In.
    split; [rewrite Hw'; exact Hin|].
    apply lookup_callback_spec. split; [congruence|].
    exists (setViolationDetected (JBool true) d). split; [|reflexivity].
    rewrite Hw'. unfold detailsOf. rewrite Htx. simpl. apply lookup_insert_eq. }
  rewrite (processFairPricing_unfold w' request d2 Hd2).
  rewrite Hqv, Hdc. unfold pricingDecision, spoilageKg. simpl.
  destruct (findByProductWithViolation (productId request) w'); [destruct Hfound|].
  reflexivity.
Qed.

Lemma violation_then_spoilage_witness :
  fst (processFairPricing pricedTransaction
         (snd (verifyFoodConditions hotTransport worldBeforeHotTransport)))
  = Normal {| Pricing.status := "Payment Released";
              Pricing.amount :=
                nmul (nsub (int 500) (nmul (lit 15 100) (int 500))) (int 350) |}.
Proof.
  rewrite (violation_then_spoilage worldBeforeHotTransport hotTransport
             pricedTransaction 5%positive 7%positive
             (conditionDetails 30 50 20 28 40 60)
             (paymentDetails 500 350 true true (Some (Q2Qc (15 # 100))))
             {| minTemp := int 20; maxTemp := int 28;
                minHumidity := int 40; maxHumidity := int 60 |}).
  - reflexivity.
  - vm_compute. auto 10.
  - reflexivity.
  - reflexivity.
  - reflexivity.
  - vm_compute. reflexivity.
  - reflexivity.
  - reflexivity.
  - discriminate.
  - reflexivity.
  - reflexivity.
  - reflexivity.
Defined.
